(** * carbon-em-calc: a shallow embedding of the carbon accounting backend

    The development follows the layout of the Python package [app]:

    - [Py]        the fragment of Python the package relies on: floats,
                  [str.lower], [float(str)], [round(x, 3)], exceptions and
                  the [try]/[except] clause matching;
    - [Models]    the SQLAlchemy row classes of [models.py];
    - [Database]  the session of [database.py] (staged rows, [commit]);
    - [Schemas]   the request and response bodies of [schemas.py];
    - [Jwt]       the part of the [jwt] package that [auth.py] calls;
    - [Auth]      [auth.py];
    - [Routes]    [routes.py].

    Numbers.  Python [int] is [Z].  A Python [float] is modelled by the
    exact rational it stands for, together with the three non-finite values
    that [float(str)] can produce ([inf], [-inf], [nan]); rounding to
    binary64 and signed zeros are not modelled.  Strings are byte strings,
    and [str.lower] acts on the ASCII letters. *)

From Stdlib Require Import ZArith QArith Qround String Ascii DecimalString List Bool Lia.
Import ListNotations.

Local Open Scope string_scope.
Local Open Scope Z_scope.

(* ------------------------------------------------------------------------- *)
(** * The Python fragment *)
(* ------------------------------------------------------------------------- *)

Module Py.

(** ** Exceptions *)

(** The exception classes that can be raised or named in the package.
    [ExpiredSignatureError] and [DecodeError] are the two [jwt] errors a
    [decode] call can end with; both derive from [InvalidTokenError], which
    derives from [PyJWTError]. *)
Inductive exn_class : Type :=
| C_Exception
| C_HTTPException
| C_AttributeError
| C_TypeError
| C_ValueError
| C_ZeroDivisionError
| C_PyJWTError
| C_InvalidTokenError
| C_ExpiredSignatureError
| C_DecodeError
| C_ClientError.

Inductive exn : Type :=
| HTTPException (status_code : Z) (detail : string)
| AttributeError (name : string)
| TypeError
| ValueError
| ZeroDivisionError
| ExpiredSignatureError
| DecodeError
| ClientError (msg : string).

Definition class_of (e : exn) : exn_class :=
  match e with
  | HTTPException _ _ => C_HTTPException
  | AttributeError _ => C_AttributeError
  | TypeError => C_TypeError
  | ValueError => C_ValueError
  | ZeroDivisionError => C_ZeroDivisionError
  | ExpiredSignatureError => C_ExpiredSignatureError
  | DecodeError => C_DecodeError
  | ClientError _ => C_ClientError
  end.

Definition exn_class_eqb (a b : exn_class) : bool :=
  match a, b with
  | C_Exception, C_Exception
  | C_HTTPException, C_HTTPException
  | C_AttributeError, C_AttributeError
  | C_TypeError, C_TypeError
  | C_ValueError, C_ValueError
  | C_ZeroDivisionError, C_ZeroDivisionError
  | C_PyJWTError, C_PyJWTError
  | C_InvalidTokenError, C_InvalidTokenError
  | C_ExpiredSignatureError, C_ExpiredSignatureError
  | C_DecodeError, C_DecodeError
  | C_ClientError, C_ClientError => true
  | _, _ => false
  end.

(** A class with the classes it derives from, up to [Exception]. *)
Definition bases (c : exn_class) : list exn_class :=
  match c with
  | C_Exception => [C_Exception]
  | C_ExpiredSignatureError =>
      [C_ExpiredSignatureError; C_InvalidTokenError; C_PyJWTError; C_Exception]
  | C_DecodeError => [C_DecodeError; C_InvalidTokenError; C_PyJWTError; C_Exception]
  | C_InvalidTokenError => [C_InvalidTokenError; C_PyJWTError; C_Exception]
  | C_PyJWTError => [C_PyJWTError; C_Exception]
  | _ => [c; C_Exception]
  end.

(** [issubclass(c, d)] *)
Definition issubclass (c d : exn_class) : bool :=
  existsb (exn_class_eqb d) (bases c).

Definition isinstance (e : exn) (c : exn_class) : bool :=
  issubclass (class_of e) c.

(** The outcome of running a piece of Python: a value or an exception. *)
Inductive result (A : Type) : Type :=
| Return (a : A)
| Raise (e : exn).
Arguments Return {A} a.
Arguments Raise {A} e.

Definition bind {A B} (r : result A) (k : A -> result B) : result B :=
  match r with
  | Return a => k a
  | Raise e => Raise e
  end.

(** One [except <expr>: <handler>] clause.  The expression is evaluated
    only when an exception reaches the clause, and its evaluation may
    itself raise (an attribute missing from a module). *)
Record except_clause (A : Type) : Type := Except {
  clause_class : result exn_class;
  clause_handler : exn -> result A
}.
Arguments Except {A} _ _.
Arguments clause_class {A} _.
Arguments clause_handler {A} _.

(** Matching of a raised exception against the clauses, in order: the
    first clause whose class the exception is an instance of runs; an
    exception that matches none propagates; an exception raised while a
    clause's class expression is evaluated replaces the one in flight. *)
Fixpoint dispatch {A} (e : exn) (clauses : list (except_clause A)) : result A :=
  match clauses with
  | [] => Raise e
  | c :: rest =>
      match clause_class c with
      | Raise e' => Raise e'
      | Return cls =>
          if isinstance e cls then clause_handler c e else dispatch e rest
      end
  end.

Definition try_except {A} (body : result A) (clauses : list (except_clause A)) : result A :=
  match body with
  | Return a => Return a
  | Raise e => dispatch e clauses
  end.

(** ** Floats *)

Inductive pyfloat : Type :=
| Fin (q : Q)
| Inf (neg : bool)
| NaN.

Definition of_int (z : Z) : pyfloat := Fin (inject_Z z).

(** Equality of the modelled values (rationals up to [Qeq]). *)
Definition feq (a b : pyfloat) : Prop :=
  match a, b with
  | Fin x, Fin y => Qeq x y
  | Inf s, Inf t => s = t
  | NaN, NaN => True
  | _, _ => False
  end.

Definition Qneg (q : Q) : bool :=
  match Qcompare q 0 with Lt => true | _ => false end.

Definition Qzero (q : Q) : bool :=
  match Qcompare q 0 with Eq => true | _ => false end.

Definition inf_times (s : bool) (y : Q) : pyfloat :=
  if Qzero y then NaN else Inf (xorb s (Qneg y)).

Definition fmul (a b : pyfloat) : pyfloat :=
  match a, b with
  | NaN, _ | _, NaN => NaN
  | Fin x, Fin y => Fin (x * y)
  | Inf s, Fin y => inf_times s y
  | Fin x, Inf t => inf_times t x
  | Inf s, Inf t => Inf (xorb s t)
  end.

Definition fadd (a b : pyfloat) : pyfloat :=
  match a, b with
  | NaN, _ | _, NaN => NaN
  | Fin x, Fin y => Fin (x + y)
  | Inf s, Fin _ => Inf s
  | Fin _, Inf t => Inf t
  | Inf s, Inf t => if Bool.eqb s t then Inf s else NaN
  end.

Definition is_zero (a : pyfloat) : bool :=
  match a with
  | Fin x => Qzero x
  | _ => false
  end.

(** [a / b]: Python raises [ZeroDivisionError] on a zero divisor. *)
Definition fdiv (a b : pyfloat) : result pyfloat :=
  if is_zero b then Raise ZeroDivisionError
  else Return
    match a, b with
    | NaN, _ | _, NaN => NaN
    | Fin x, Fin y => Fin (x / y)
    | Fin _, Inf _ => Fin 0
    | Inf s, Fin y => Inf (xorb s (Qneg y))
    | Inf _, Inf _ => NaN
    end.

(** [a < b]; every comparison with [nan] is false. *)
Definition flt (a b : pyfloat) : bool :=
  match a, b with
  | NaN, _ | _, NaN => false
  | Fin x, Fin y => match Qcompare x y with Lt => true | _ => false end
  | Fin _, Inf t => negb t
  | Inf s, Fin _ => s
  | Inf s, Inf t => s && negb t
  end.

(** [a >= b], the test behind the phrase non-negative. *)
Definition fge (a b : pyfloat) : bool :=
  match a, b with
  | NaN, _ | _, NaN => false
  | _, _ => negb (flt a b)
  end.

(** Rounding of a rational to the nearest integer, ties to even. *)
Definition round_half_even (q : Q) : Z :=
  let f := Qfloor q in
  match Qcompare (q - inject_Z f) (1 # 2) with
  | Lt => f
  | Gt => f + 1
  | Eq => if Z.even f then f else f + 1
  end.

(** [round(x, 3)]. *)
Definition round3 (a : pyfloat) : pyfloat :=
  match a with
  | Fin x => Fin (inject_Z (round_half_even (x * 1000)) / 1000)
  | _ => a
  end.

(** ** Strings *)

Definition is_upper (c : ascii) : bool :=
  let n := nat_of_ascii c in (65 <=? n)%nat && (n <=? 90)%nat.

Definition lower_char (c : ascii) : ascii :=
  if is_upper c then ascii_of_nat (nat_of_ascii c + 32) else c.

(** [s.lower()]. *)
Fixpoint lower (s : string) : string :=
  match s with
  | EmptyString => EmptyString
  | String c rest => String (lower_char c) (lower rest)
  end.

(** [str(z)] and the [{z}] of an f-string, for an [int]. *)
Definition str_of_int (z : Z) : string := NilZero.string_of_int (Z.to_int z).

(** [sep.join(xs)] *)
Fixpoint join (sep : string) (xs : list string) : string :=
  match xs with
  | [] => ""
  | [x] => x
  | x :: rest => x ++ sep ++ join sep rest
  end.

(** [str(e)] for an exception: its message. *)
Definition str_of_exn (e : exn) : string :=
  match e with
  | HTTPException _ detail => detail
  | AttributeError name => "object has no attribute '" ++ name ++ "'"
  | ClientError msg => msg
  | _ => ""
  end.

(** [if cond: raise e] *)
Definition raise_if (cond : bool) (e : exn) : result unit :=
  if cond then Raise e else Return tt.

(** [x in xs] for a list of strings. *)
Definition str_in (x : string) (xs : list string) : bool :=
  existsb (String.eqb x) xs.

(** [d.get(k)] for a dict written as a literal: the LAST binding of a
    repeated key would win in Python; the literals of the package repeat
    no key, and the lookup returns the first. *)
Fixpoint dict_get {V} (d : list (string * V)) (k : string) : option V :=
  match d with
  | [] => None
  | (k', v) :: rest => if String.eqb k k' then Some v else dict_get rest k
  end.

Definition dict_get_default {V} (d : list (string * V)) (k : string) (dflt : V) : V :=
  match dict_get d k with
  | Some v => v
  | None => dflt
  end.

(** ** [float(str)] *)

(** The ASCII characters that count as whitespace: space, tab to carriage
    return, and the four separators 28 to 31. *)
Definition is_space (c : ascii) : bool :=
  let n := nat_of_ascii c in
  (n =? 32)%nat || ((9 <=? n)%nat && (n <=? 13)%nat) || ((28 <=? n)%nat && (n <=? 31)%nat).

Fixpoint lstrip (s : string) : string :=
  match s with
  | String c rest => if is_space c then lstrip rest else s
  | EmptyString => EmptyString
  end.

Fixpoint all_space (s : string) : bool :=
  match s with
  | String c rest => is_space c && all_space rest
  | EmptyString => true
  end.

Definition digit_of (c : ascii) : option Z :=
  let n := nat_of_ascii c in
  if (48 <=? n)%nat && (n <=? 57)%nat then Some (Z.of_nat (n - 48)) else None.

(** The continuation of a [digitpart]: [(["_"] digit)*].  Returns the
    accumulated value, the number of digits read and the unread rest. *)
Fixpoint digits_more (s : string) (acc : Z) (n : nat) : Z * nat * string :=
  match s with
  | String c rest =>
      match digit_of c with
      | Some d => digits_more rest (10 * acc + d) (S n)
      | None =>
          if Ascii.eqb c "_" then
            match rest with
            | String c' rest' =>
                match digit_of c' with
                | Some d => digits_more rest' (10 * acc + d) (S n)
                | None => (acc, n, s)
                end
            | EmptyString => (acc, n, s)
            end
          else (acc, n, s)
      end
  | EmptyString => (acc, n, s)
  end.

(** An optional [digitpart ::= digit (["_"] digit)*], continuing the
    digits already read into [acc]. *)
Definition digitpart (s : string) (acc : Z) : Z * nat * string :=
  match s with
  | String c rest =>
      match digit_of c with
      | Some d => digits_more rest (10 * acc + d) 1
      | None => (acc, O, s)
      end
  | EmptyString => (acc, O, s)
  end.

Definition sign (s : string) : bool * string :=
  match s with
  | String c rest =>
      if Ascii.eqb c "-" then (true, rest)
      else if Ascii.eqb c "+" then (false, rest)
      else (false, s)
  | EmptyString => (false, s)
  end.

(** [exponent ::= ("e" | "E") [sign] digitpart], optional. *)
Definition exponent (s : string) : option (Z * string) :=
  match s with
  | String c rest =>
      if Ascii.eqb c "e" || Ascii.eqb c "E" then
        let '(neg, rest1) := sign rest in
        match digitpart rest1 0 with
        | (_, O, _) => None
        | (e, _, rest2) => Some (if neg then - e else e, rest2)
        end
      else Some (0, s)
  | EmptyString => Some (0, s)
  end.

(** [floatnumber ::= number [exponent]] with
    [number ::= [digitpart] "." digitpart | digitpart ["."]]. *)
Definition floatnumber (s : string) : option (Q * string) :=
  let '(ip, ni, rest) := digitpart s 0 in
  let '(m, nf, rest1) :=
    match rest with
    | String c r => if Ascii.eqb c "." then digitpart r ip else (ip, O, rest)
    | EmptyString => (ip, O, rest)
    end in
  match ni, nf with
  | O, O => None
  | _, _ =>
      match exponent rest1 with
      | None => None
      | Some (e, rest2) =>
          Some (Qmult (inject_Z m) (Qpower 10 (e - Z.of_nat nf)), rest2)
      end
  end.

Definition qneg_if (neg : bool) (q : Q) : Q := if neg then Qopp q else q.

(** [after p s]: what follows [p] in [s], when [s] starts with [p]. *)
Fixpoint after (p s : string) : option string :=
  match p, s with
  | EmptyString, _ => Some s
  | String a p', String b s' => if Ascii.eqb a b then after p' s' else None
  | String _ _, EmptyString => None
  end.

(** [s] is the name [p] followed by whitespace only. *)
Definition names (p s : string) : bool :=
  match after p s with
  | Some rest => all_space rest
  | None => false
  end.

(** [float(s)]: surrounding whitespace is ignored, then
    [[sign] (floatnumber | "inf" | "infinity" | "nan")], the three names
    in any case; anything else raises [ValueError]. *)
Definition float (s : string) : result pyfloat :=
  let '(neg, body) := sign (lstrip s) in
  match floatnumber body with
  | Some (q, rest) =>
      if all_space rest then Return (Fin (qneg_if neg q)) else Raise ValueError
  | None =>
      let l := lower body in
      if names "infinity" l || names "inf" l then Return (Inf neg)
      else if names "nan" l then Return NaN
      else Raise ValueError
  end.

(** ** Attribute values *)

Inductive value : Type :=
| VNone
| VInt (z : Z)
| VFloat (f : pyfloat)
| VStr (s : string).

(** Truth value of an object in a condition. *)
Definition truthy (v : value) : bool :=
  match v with
  | VNone => false
  | VInt z => negb (z =? 0)
  | VFloat f => negb (is_zero f)
  | VStr s => negb (String.eqb s "")
  end.

(** [v > 0]; comparing a [str] or [None] with an [int] is a [TypeError]. *)
Definition gt_zero (v : value) : result bool :=
  match v with
  | VInt z => Return (0 <? z)
  | VFloat f => Return (flt (Fin 0) f)
  | _ => Raise TypeError
  end.

(** [v * f] for a float [f]; a [str] or [None] operand is a [TypeError]. *)
Definition mul_float (v : value) (f : pyfloat) : result pyfloat :=
  match v with
  | VInt z => Return (fmul (of_int z) f)
  | VFloat x => Return (fmul x f)
  | _ => Raise TypeError
  end.

End Py.

Import Py.

Declare Scope py_scope.
Delimit Scope py_scope with py.
Notation "x <- c ;; k" := (Py.bind c (fun x => k))
  (at level 100, c at next level, right associativity) : py_scope.

(** State threaded through code that can raise: the state reached when the
    exception is raised is kept, as the store is on a failed request. *)
Module Eff.

Definition ST (S A : Type) : Type := S -> result A * S.

Definition ret {S A} (a : A) : ST S A := fun s => (Return a, s).

Definition bind {S A B} (c : ST S A) (k : A -> ST S B) : ST S B :=
  fun s =>
    match c s with
    | (Return a, s') => k a s'
    | (Raise e, s') => (Raise e, s')
    end.

Definition lift {S A} (r : result A) : ST S A := fun s => (r, s).

Definition get {S} : ST S S := fun s => (Return s, s).

Definition modify {S} (f : S -> S) : ST S unit := fun s => (Return tt, f s).

(** [try: body except ...], the state being the one reached when the
    exception was raised. *)
Definition try_except {S A} (body : ST S A) (clauses : list (except_clause A)) : ST S A :=
  fun s =>
    match body s with
    | (Return a, s') => (Return a, s')
    | (Raise e, s') => (dispatch e clauses, s')
    end.

(** [for x in xs: body], with the loop-carried variables in [acc]. *)
Fixpoint for_each {S X Acc} (xs : list X) (body : X -> Acc -> ST S Acc) (acc : Acc)
  : ST S Acc :=
  match xs with
  | [] => ret acc
  | x :: rest => bind (body x acc) (for_each rest body)
  end.

End Eff.

Declare Scope st_scope.
Delimit Scope st_scope with st.
Notation "x <- c ;; k" := (Eff.bind c (fun x => k))
  (at level 100, c at next level, right associativity) : st_scope.
Notation "c ;; k" := (Eff.bind c (fun _ => k))
  (at level 100, right associativity) : st_scope.

(* ------------------------------------------------------------------------- *)
(** * models.py *)
(* ------------------------------------------------------------------------- *)

(** One module per mapped class, one field per column the code reads or
    writes.  Dates are timestamps.  The columns that only ever hold their
    declared default ([created_at], [uploaded_at], [total_carbon_kg],
    [flight_distance_km], [carbon_kg_per_passenger], [carbon_kg_total]) are
    left out: no function of the package assigns or reads them. *)
Module Models.

Module Hotel.
Record t : Type := mk {
  id : Z;
  name : string;
  email : string;
  password : string
}.
End Hotel.

Module TravelAgent.
Record t : Type := mk {
  id : Z;
  name : string;
  email : string;
  password : string;
  company : option string
}.
End TravelAgent.

Module Trip.
Record t : Type := mk {
  id : Z;
  travel_agent_id : Z;
  trip_name : string;
  trip_description : option string;
  number_of_tourists : Z;
  start_date : Z;
  end_date : Z
}.
Definition with_id (i : Z) (r : t) : t :=
  mk i (travel_agent_id r) (trip_name r) (trip_description r)
     (number_of_tourists r) (start_date r) (end_date r).
End Trip.

Module FlightSegment.
Record t : Type := mk {
  id : Z;
  trip_id : Z;
  departure_airport : string;
  arrival_airport : string;
  transit_airports : option string
}.
Definition with_id (i : Z) (r : t) : t :=
  mk i (trip_id r) (departure_airport r) (arrival_airport r) (transit_airports r).
End FlightSegment.

Module LocalTransport.
Record t : Type := mk {
  id : Z;
  trip_id : Z;
  vehicle_type : string;
  distance_km : pyfloat
}.
Definition with_id (i : Z) (r : t) : t :=
  mk i (trip_id r) (vehicle_type r) (distance_km r).
End LocalTransport.

Module HotelStay.
Record t : Type := mk {
  id : Z;
  trip_id : Z;
  hotel_id : Z;
  number_of_nights : Z;
  check_in_date : Z;
  check_out_date : Z
}.
Definition with_id (i : Z) (r : t) : t :=
  mk i (trip_id r) (hotel_id r) (number_of_nights r) (check_in_date r) (check_out_date r).
End HotelStay.

Module UtilityBill.
Record t : Type := mk {
  id : Z;
  hotel_id : Z;
  hotel_name : string;
  bill_type : string;
  bill_month : Z;
  bill_year : Z;
  bill_amount : string;
  unit : string;
  file_url : string
}.
Definition with_id (i : Z) (r : t) : t :=
  mk i (hotel_id r) (hotel_name r) (bill_type r) (bill_month r) (bill_year r)
     (bill_amount r) (unit r) (file_url r).

(** The data attributes of an instance, by name: the mapped columns of
    the class.  Reading any other name raises [AttributeError]. *)
Definition columns (b : t) : list (string * value) :=
  [ ("id", VInt (id b));
    ("hotel_id", VInt (hotel_id b));
    ("hotel_name", VStr (hotel_name b));
    ("bill_type", VStr (bill_type b));
    ("bill_month", VInt (bill_month b));
    ("bill_year", VInt (bill_year b));
    ("bill_amount", VStr (bill_amount b));
    ("unit", VStr (unit b));
    ("file_url", VStr (file_url b)) ].

Definition getattr (b : t) (attr : string) : result value :=
  match dict_get (columns b) attr with
  | Some v => Return v
  | None => Raise (AttributeError attr)
  end.
End UtilityBill.

End Models.

Import Models.

(* ------------------------------------------------------------------------- *)
(** * database.py *)
(* ------------------------------------------------------------------------- *)

Module Database.

(** The relational store: one list of rows per table, in insertion
    order. *)
Record Store : Type := mkStore {
  hotels : list Hotel.t;
  travel_agents : list TravelAgent.t;
  trips : list Trip.t;
  flight_segments : list FlightSegment.t;
  local_transports : list LocalTransport.t;
  hotel_stays : list HotelStay.t;
  utility_bills : list UtilityBill.t
}.

(** An object handed to [db.add]. *)
Inductive Row : Type :=
| RTrip (r : Trip.t)
| RFlightSegment (r : FlightSegment.t)
| RLocalTransport (r : LocalTransport.t)
| RHotelStay (r : HotelStay.t)
| RUtilityBill (r : UtilityBill.t).

(** A session of [SessionLocal] ([autocommit=False, autoflush=False]):
    the store as committed so far and the objects staged by [add]. *)
Record Session : Type := mkSession {
  store : Store;
  pending : list Row
}.

(** The primary key the store gives to the next row of a table. *)
Definition next_id {A} (id : A -> Z) (rows : list A) : Z :=
  1 + fold_right (fun r m => Z.max (id r) m) 0 rows.

Definition insert (st : Store) (r : Row) : Store :=
  match r with
  | RTrip x =>
      mkStore (hotels st) (travel_agents st)
              (trips st ++ [Trip.with_id (next_id Trip.id (trips st)) x])
              (flight_segments st) (local_transports st) (hotel_stays st)
              (utility_bills st)
  | RFlightSegment x =>
      mkStore (hotels st) (travel_agents st) (trips st)
              (flight_segments st
                 ++ [FlightSegment.with_id (next_id FlightSegment.id (flight_segments st)) x])
              (local_transports st) (hotel_stays st) (utility_bills st)
  | RLocalTransport x =>
      mkStore (hotels st) (travel_agents st) (trips st) (flight_segments st)
              (local_transports st
                 ++ [LocalTransport.with_id (next_id LocalTransport.id (local_transports st)) x])
              (hotel_stays st) (utility_bills st)
  | RHotelStay x =>
      mkStore (hotels st) (travel_agents st) (trips st) (flight_segments st)
              (local_transports st)
              (hotel_stays st
                 ++ [HotelStay.with_id (next_id HotelStay.id (hotel_stays st)) x])
              (utility_bills st)
  | RUtilityBill x =>
      mkStore (hotels st) (travel_agents st) (trips st) (flight_segments st)
              (local_transports st) (hotel_stays st)
              (utility_bills st
                 ++ [UtilityBill.with_id (next_id UtilityBill.id (utility_bills st)) x])
  end.

(** [db.add(obj)] *)
Definition add (r : Row) (db : Session) : Session :=
  mkSession (store db) (pending db ++ [r]).

(** [db.commit()]: the staged objects become rows of the store. *)
Definition commit (db : Session) : Session :=
  mkSession (fold_left insert (pending db) (store db)) [].

(** [db.close()] in the [finally] of [get_db]: what was staged and not
    committed is dropped. *)
Definition close (db : Session) : Session :=
  mkSession (store db) [].

(** [SessionLocal()] *)
Definition SessionLocal (st : Store) : Session := mkSession st [].

(** [get_db] around a request handler: a fresh session, the handler, and
    [close] on every exit.  The result is the handler's outcome and the
    store it leaves behind. *)
Definition get_db {A} (handler : Eff.ST Session A) (st : Store) : result A * Store :=
  let '(r, db) := handler (SessionLocal st) in
  (r, store (close db)).

(** [query.first()] *)
Definition first {A} (rows : list A) : option A := List.hd_error rows.

(** An account object handed to [db.add] by a register endpoint. *)
Inductive Account : Type :=
| AHotel (r : Hotel.t)
| ATravelAgent (r : TravelAgent.t).

(** The session of a register endpoint: the store as committed so far and
    the account objects staged by [add]. *)
Record AccountSession : Type := mkAccountSession {
  account_store : Store;
  staged : list Account
}.

Definition insert_account (st : Store) (a : Account) : Store :=
  match a with
  | AHotel x =>
      mkStore (hotels st
                 ++ [Hotel.mk (next_id Hotel.id (hotels st)) (Hotel.name x) (Hotel.email x)
                              (Hotel.password x)])
              (travel_agents st) (trips st) (flight_segments st) (local_transports st)
              (hotel_stays st) (utility_bills st)
  | ATravelAgent x =>
      mkStore (hotels st)
              (travel_agents st
                 ++ [TravelAgent.mk (next_id TravelAgent.id (travel_agents st))
                                    (TravelAgent.name x) (TravelAgent.email x)
                                    (TravelAgent.password x) (TravelAgent.company x)])
              (trips st) (flight_segments st) (local_transports st)
              (hotel_stays st) (utility_bills st)
  end.

(** [db.add(account)] *)
Definition add_account (a : Account) (db : AccountSession) : AccountSession :=
  mkAccountSession (account_store db) (staged db ++ [a]).

(** [db.commit()] *)
Definition commit_accounts (db : AccountSession) : AccountSession :=
  mkAccountSession (fold_left insert_account (staged db) (account_store db)) [].

(** [get_db] around a register handler. *)
Definition get_account_db {A} (handler : Eff.ST AccountSession A) (st : Store)
  : result A * Store :=
  let '(r, db) := handler (mkAccountSession st []) in
  (r, account_store db).

End Database.

Import Database.

(* ------------------------------------------------------------------------- *)
(** * schemas.py *)
(* ------------------------------------------------------------------------- *)

Module Schemas.

Module HotelLogin.
Record t : Type := mk { email : string; password : string }.
End HotelLogin.

Module TravelAgentLogin.
Record t : Type := mk { email : string; password : string }.
End TravelAgentLogin.

Module FlightSegmentCreate.
Record t : Type := mk {
  departure_airport : string;
  arrival_airport : string;
  transit_airports : option string
}.
End FlightSegmentCreate.

Module LocalTransportCreate.
Record t : Type := mk {
  vehicle_type : string;
  distance_km : pyfloat
}.
End LocalTransportCreate.

Module HotelStayCreate.
Record t : Type := mk {
  hotel_id : Z;
  number_of_nights : Z;
  check_in_date : Z;
  check_out_date : Z
}.
End HotelStayCreate.

Module TripCreate.
Record t : Type := mk {
  trip_name : string;
  trip_description : option string;
  number_of_tourists : Z;
  start_date : Z;
  end_date : Z;
  flight_segments : list FlightSegmentCreate.t;
  local_transports : list LocalTransportCreate.t;
  hotel_stays : list HotelStayCreate.t
}.

(** The [Field] constraints a request body passes before the handler
    runs: [number_of_tourists] and [number_of_nights] are [gt=0], and so
    is [distance_km]. *)
Definition validates (b : t) : bool :=
  (0 <? number_of_tourists b)
  && forallb (fun x => flt (Fin 0) (LocalTransportCreate.distance_km x)) (local_transports b)
  && forallb (fun x => 0 <? HotelStayCreate.number_of_nights x) (hotel_stays b).
End TripCreate.

(** The dicts appended to [flight_details], [transport_details] and
    [hotel_details]. *)
Record FlightDetail : Type := mkFlightDetail {
  fd_route : string;
  fd_carbon_kg : pyfloat;
  fd_passengers : Z
}.

Record TransportDetail : Type := mkTransportDetail {
  td_vehicle_type : string;
  td_distance_km : pyfloat;
  td_carbon_kg : pyfloat;
  td_passengers : Z
}.

Record HotelDetail : Type := mkHotelDetail {
  hd_hotel_name : string;
  hd_nights : Z;
  hd_carbon_kg : pyfloat;
  hd_guests : Z
}.

Module TripCarbonResponse.
Record t : Type := mk {
  trip_id : Z;
  trip_name : string;
  number_of_tourists : Z;
  total_carbon_kg : pyfloat;
  carbon_per_tourist_kg : pyfloat;
  flights_carbon_kg : pyfloat;
  transport_carbon_kg : pyfloat;
  hotels_carbon_kg : pyfloat;
  flight_details : list FlightDetail;
  transport_details : list TransportDetail;
  hotel_details : list HotelDetail
}.
End TripCarbonResponse.

Module HotelCreate.
Record t : Type := mk { name : string; email : string; password : string }.
End HotelCreate.

Module TravelAgentCreate.
Record t : Type := mk {
  name : string;
  email : string;
  password : string;
  company : option string
}.
End TravelAgentCreate.

Module BillUploadResponse.
Record t : Type := mk {
  id : Z;
  bill_type : string;
  bill_month : Z;
  bill_year : Z;
  bill_amount : string;
  unit : string;
  file_url : string;
  message : string
}.
End BillUploadResponse.

End Schemas.

Import Schemas.

(* ------------------------------------------------------------------------- *)
(** * The [jwt] package as [auth.py] uses it *)
(* ------------------------------------------------------------------------- *)

(** [auth.py] does [import jwt] and calls [jwt.encode(payload, key,
    algorithm=...)], [jwt.decode(token, key, algorithms=[...])] and names
    [jwt.ExpiredSignatureError] and [jwt.InvalidTokenError]: the PyJWT
    package.  A token is modelled by what its signature protects: the key
    it was signed with and its claims; any other bearer string is
    [Malformed]. *)
Module Jwt.

Definition claims : Type := list (string * value).

Inductive token : Type :=
| Signed (key : string) (payload : claims)
| Malformed (text : string).

(** [jwt.encode(payload, key, algorithm="HS256")] *)
Definition encode (payload : claims) (key : string) : token := Signed key payload.

(** [jwt.decode(token, key, algorithms=["HS256"])] at time [now]: a bad
    signature or an unreadable token raises [DecodeError]; an [exp] claim
    that is not in the future raises [ExpiredSignatureError]. *)
Definition decode (t : token) (key : string) (now : Z) : result claims :=
  match t with
  | Malformed _ => Raise DecodeError
  | Signed k payload =>
      if String.eqb k key then
        match dict_get payload "exp" with
        | Some (VInt exp) => if exp <=? now then Raise ExpiredSignatureError else Return payload
        | _ => Return payload
        end
      else Raise DecodeError
  end.

(** The exception classes the package exports, by attribute name.  The
    package has no attribute [JWTError] (that name belongs to python-jose). *)
Definition exports : list (string * exn_class) :=
  [ ("PyJWTError", C_PyJWTError);
    ("InvalidTokenError", C_InvalidTokenError);
    ("DecodeError", C_DecodeError);
    ("ExpiredSignatureError", C_ExpiredSignatureError) ].

(** [jwt.<name>] *)
Definition getattr (name : string) : result exn_class :=
  match dict_get exports name with
  | Some c => Return c
  | None => Raise (AttributeError name)
  end.

End Jwt.

(* ------------------------------------------------------------------------- *)
(** * auth.py *)
(* ------------------------------------------------------------------------- *)

Module Auth.

Section Auth.

(** [bcrypt.verify(password, hash)] of passlib, and the signing secret read
    from the environment. *)
Variable bcrypt_verify : string -> string -> bool.
Variable JWT_SECRET_KEY : string.

(** [to_encode.update({"exp": expire})] *)
Definition dict_update (d : Jwt.claims) (k : string) (v : value) : Jwt.claims :=
  (filter (fun kv => negb (String.eqb (fst kv) k)) d ++ [(k, v)])%list.

(** [create_access_token(data)] at time [now] (seconds): the claims plus
    an expiry 24 hours ahead, signed with the secret. *)
Definition create_access_token (data : Jwt.claims) (now : Z) : Jwt.token :=
  let to_encode := data in
  let expire := now + 24 * 3600 in
  let to_encode := dict_update to_encode "exp" (VInt expire) in
  Jwt.encode to_encode JWT_SECRET_KEY.

(** The dict returned by [get_current_hotel]. *)
Record CurrentHotel : Type := mkCurrentHotel {
  hotel_id : value;
  hotel_name : value
}.

(** [get_current_hotel(credentials)] *)
Definition get_current_hotel (credentials : Jwt.token) (now : Z) : result CurrentHotel :=
  try_except
    (let token := credentials in
     payload <- Jwt.decode token JWT_SECRET_KEY now ;;
     let hotel_id := dict_get_default payload "hotel_id" VNone in
     let hotel_name := dict_get_default payload "hotel_name" VNone in
     if negb (truthy hotel_id) || negb (truthy hotel_name) then
       Raise (HTTPException 401 "Invalid token: missing hotel information")
     else Return (mkCurrentHotel hotel_id hotel_name))%py
    [ Except (Jwt.getattr "ExpiredSignatureError")
             (fun _ => Raise (HTTPException 401 "Token has expired"));
      Except (Jwt.getattr "InvalidTokenError")
             (fun _ => Raise (HTTPException 401 "Invalid token")) ].

(** The dict returned by both login endpoints; [subject_id] and
    [subject_name] are the keys [hotel_id]/[hotel_name] or
    [agent_id]/[agent_name]. *)
Record LoginResponse : Type := mkLoginResponse {
  message : string;
  access_token : Jwt.token;
  token_type : string;
  subject_id : Z;
  subject_name : string
}.

(** [login(hotel, db)].  The test [not db_hotel or not bcrypt.verify(...)]
    is short-circuit: the hash is compared only when a row was found, and
    both ways of failing raise the same exception. *)
Definition login (hotel : HotelLogin.t) (db : Store) (now : Z) : result LoginResponse :=
  let db_hotel :=
    first (filter (fun h => String.eqb (Hotel.email h) (HotelLogin.email hotel)) (hotels db)) in
  match db_hotel with
  | None => Raise (HTTPException 400 "Invalid email or password")
  | Some db_hotel =>
      if negb (bcrypt_verify (HotelLogin.password hotel) (Hotel.password db_hotel)) then
        Raise (HTTPException 400 "Invalid email or password")
      else
        let access_token :=
          create_access_token
            [("hotel_id", VInt (Hotel.id db_hotel)); ("hotel_name", VStr (Hotel.name db_hotel))]
            now in
        Return (mkLoginResponse "Login successful" access_token "bearer"
                                (Hotel.id db_hotel) (Hotel.name db_hotel))
  end.

(** The agents whose primary key equals the claim: an [int] claim selects
    by equality, any other value matches no row. *)
Definition agent_with_id (agent_id : value) (a : TravelAgent.t) : bool :=
  match agent_id with
  | VInt z => TravelAgent.id a =? z
  | _ => false
  end.

(** [get_current_travel_agent(credentials, db)] *)
Definition get_current_travel_agent (credentials : Jwt.token) (db : Store) (now : Z)
  : result TravelAgent.t :=
  try_except
    (let token := credentials in
     payload <- Jwt.decode token JWT_SECRET_KEY now ;;
     let agent_id := dict_get_default payload "agent_id" VNone in
     match agent_id with
     | VNone => Raise (HTTPException 401 "Invalid token: missing agent_id")
     | _ =>
         let db_agent := first (filter (agent_with_id agent_id) (travel_agents db)) in
         match db_agent with
         | None => Raise (HTTPException 401 "Travel agent not found")
         | Some db_agent => Return db_agent
         end
     end)%py
    [ Except (Jwt.getattr "ExpiredSignatureError")
             (fun _ => Raise (HTTPException 401 "Token has expired"));
      Except (Jwt.getattr "JWTError")
             (fun _ => Raise (HTTPException 401 "Invalid token")) ].

(** [login_travel_agent(agent, db)] *)
Definition login_travel_agent (agent : TravelAgentLogin.t) (db : Store) (now : Z)
  : result LoginResponse :=
  let db_agent :=
    first (filter (fun a => String.eqb (TravelAgent.email a) (TravelAgentLogin.email agent))
                  (travel_agents db)) in
  match db_agent with
  | None => Raise (HTTPException 400 "Invalid email or password")
  | Some db_agent =>
      if negb (bcrypt_verify (TravelAgentLogin.password agent) (TravelAgent.password db_agent)) then
        Raise (HTTPException 400 "Invalid email or password")
      else
        let access_token :=
          create_access_token
            [("agent_id", VInt (TravelAgent.id db_agent));
             ("agent_name", VStr (TravelAgent.name db_agent))]
            now in
        Return (mkLoginResponse "Login successful" access_token "bearer"
                                (TravelAgent.id db_agent) (TravelAgent.name db_agent))
  end.

(** [bcrypt.hash(password)] of passlib. *)
Variable bcrypt_hash : string -> string.

(** [register(hotel, db)] *)
Definition register (hotel : HotelCreate.t) : Eff.ST AccountSession string :=
  (db <- Eff.get ;;
   let existing_hotel :=
     first (filter (fun h => String.eqb (Hotel.email h) (HotelCreate.email hotel))
                   (hotels (account_store db))) in
   match existing_hotel with
   | Some _ => Eff.lift (Raise (HTTPException 400 "Email already registered"))
   | None =>
       let hashed_pw := bcrypt_hash (HotelCreate.password hotel) in
       let db_hotel :=
         Hotel.mk 0 (HotelCreate.name hotel) (HotelCreate.email hotel) hashed_pw in
       Eff.modify (add_account (AHotel db_hotel)) ;;
       Eff.modify commit_accounts ;;
       Eff.ret "Hotel registered successfully"
   end)%st.

(** The dict returned by [register_travel_agent]. *)
Record AgentRegistered : Type := mkAgentRegistered {
  registered_message : string;
  agent_id : Z;
  agent_name : string
}.

(** [register_travel_agent(agent, db)] *)
Definition register_travel_agent (agent : TravelAgentCreate.t)
  : Eff.ST AccountSession AgentRegistered :=
  (db <- Eff.get ;;
   let existing_agent :=
     first (filter (fun a => String.eqb (TravelAgent.email a) (TravelAgentCreate.email agent))
                   (travel_agents (account_store db))) in
   match existing_agent with
   | Some _ => Eff.lift (Raise (HTTPException 400 "Email already registered"))
   | None =>
       let hashed_password := bcrypt_hash (TravelAgentCreate.password agent) in
       let db_agent :=
         TravelAgent.mk 0 (TravelAgentCreate.name agent) (TravelAgentCreate.email agent)
                        hashed_password (TravelAgentCreate.company agent) in
       Eff.modify (add_account (ATravelAgent db_agent)) ;;
       Eff.modify commit_accounts ;;
       (* db.refresh(db_agent): the row as the store numbered it *)
       db <- Eff.get ;;
       let db_agent := List.last (travel_agents (account_store db)) db_agent in
       Eff.ret (mkAgentRegistered "Travel agent registered successfully"
                                  (TravelAgent.id db_agent) (TravelAgent.name db_agent))
   end)%st.

End Auth.

End Auth.

(* ------------------------------------------------------------------------- *)
(** * routes.py *)
(* ------------------------------------------------------------------------- *)

Module Routes.

(** ** Carbon calculation helpers *)

(** [airport_distances], keyed by (departure, arrival). *)
Definition airport_distances : list ((string * string) * Z) :=
  [ (("JFK", "LHR"), 5550);
    (("LHR", "CDG"), 350);
    (("CDG", "FCO"), 1110);
    (("FCO", "ATH"), 1050) ].

(** [airport_distances.get((a, b))] *)
Fixpoint route_get (d : list ((string * string) * Z)) (a b : string) : option Z :=
  match d with
  | [] => None
  | ((a', b'), km) :: rest =>
      if String.eqb a a' && String.eqb b b' then Some km else route_get rest a b
  end.

(** [x or y] on the outcome of two [get]s: [x] when it is a non-zero
    number, else [y]. *)
Definition or_else (x y : option Z) : option Z :=
  match x with
  | Some km => if km =? 0 then y else x
  | None => y
  end.

(** [calculate_flight_carbon(departure, arrival, passengers)] *)
Definition calculate_flight_carbon (departure arrival : string) (passengers : Z) : pyfloat :=
  let distance :=
    or_else (route_get airport_distances departure arrival)
            (route_get airport_distances arrival departure) in
  let distance :=
    match distance with
    | Some km => if km =? 0 then 500 else km
    | None => 500
    end in
  let emission_factor := Fin 0.255 in
  fmul (fmul (of_int distance) emission_factor) (of_int passengers).

Definition transport_factors : list (string * pyfloat) :=
  [ ("bus", Fin 0.089);
    ("car", Fin 0.171);
    ("train", Fin 0.041);
    ("taxi", Fin 0.171);
    ("metro", Fin 0.033) ].

(** [calculate_transport_carbon(vehicle_type, distance_km, passengers)] *)
Definition calculate_transport_carbon (vehicle_type : string) (distance_km : pyfloat)
    (passengers : Z) : pyfloat :=
  let factor := dict_get_default transport_factors (lower vehicle_type) (Fin 0.171) in
  fmul (fmul distance_km factor) (of_int passengers).

(** The factor table local to [calculate_hotel_stay_carbon]. *)
Definition stay_emission_factors : list (string * pyfloat) :=
  [ ("electricity", Fin 0.708);
    ("gas", Fin 2.204);
    ("water", Fin 0.298);
    ("diesel", Fin 2.687) ].

(** [30.0 * nights * (guests / 2)] *)
Definition default_stay_carbon (nights guests : Z) : pyfloat :=
  fmul (fmul (Fin 30) (of_int nights)) (Fin (inject_Z guests / 2)).

(** One turn of the loop over [hotel_bills]; the loop-carried variables
    are [(total_emissions, total_days)].  Each attribute is read as often
    as the source reads it. *)
Definition stay_bill_step (bill : UtilityBill.t) (acc : pyfloat * Z) : result (pyfloat * Z) :=
  let '(total_emissions, total_days) := acc in
  (c <- UtilityBill.getattr bill "consumption_amount" ;;
   positive <-
     (if truthy c then
        (c' <- UtilityBill.getattr bill "consumption_amount" ;; gt_zero c')
      else Return false) ;;
   if positive : bool then
     (c'' <- UtilityBill.getattr bill "consumption_amount" ;;
      t <- UtilityBill.getattr bill "bill_type" ;;
      let factor :=
        match t with
        | VStr name => dict_get_default stay_emission_factors name (Fin 0.5)
        | _ => Fin 0.5
        end in
      bill_emissions <- mul_float c'' factor ;;
      let days_in_bill := 30 in
      daily_emissions <- fdiv bill_emissions (of_int days_in_bill) ;;
      Return (fadd total_emissions daily_emissions, total_days + 1))
   else Return (total_emissions, total_days))%py.

Fixpoint stay_bills_loop (bills : list UtilityBill.t) (acc : pyfloat * Z)
  : result (pyfloat * Z) :=
  match bills with
  | [] => Return acc
  | bill :: rest => (acc' <- stay_bill_step bill acc ;; stay_bills_loop rest acc')%py
  end.

(** [calculate_hotel_stay_carbon(hotel_id, nights, guests, db)] *)
Definition calculate_hotel_stay_carbon (hotel_id nights guests : Z) (db : Store)
  : result pyfloat :=
  let hotel_bills := filter (fun b => UtilityBill.hotel_id b =? hotel_id) (utility_bills db) in
  match hotel_bills with
  | [] => Return (default_stay_carbon nights guests)
  | _ =>
      (acc <- stay_bills_loop hotel_bills (Fin 0, 0) ;;
       let '(total_emissions, total_days) := acc in
       if 0 <? total_days then
         (average_daily_emissions <- fdiv total_emissions (of_int total_days) ;;
          Return (fmul (fmul average_daily_emissions (of_int nights))
                       (Fin (inject_Z guests / 2))))
       else Return (default_stay_carbon nights guests))%py
  end.

(** [calculate_trip_total_carbon(trip_id, db)] *)
Definition calculate_trip_total_carbon (trip_id : Z) (db : Store) : result pyfloat :=
  match first (filter (fun t => Trip.id t =? trip_id) (trips db)) with
  | None => Return (Fin 0)
  | Some trip =>
      let total_carbon := Fin 0 in
      let flights := filter (fun f => FlightSegment.trip_id f =? trip_id) (flight_segments db) in
      let total_carbon :=
        fold_left
          (fun total flight =>
             fadd total (calculate_flight_carbon (FlightSegment.departure_airport flight)
                                                 (FlightSegment.arrival_airport flight)
                                                 (Trip.number_of_tourists trip)))
          flights total_carbon in
      let transports :=
        filter (fun t => LocalTransport.trip_id t =? trip_id) (local_transports db) in
      let total_carbon :=
        fold_left
          (fun total transport =>
             fadd total (calculate_transport_carbon (LocalTransport.vehicle_type transport)
                                                    (LocalTransport.distance_km transport)
                                                    (Trip.number_of_tourists trip)))
          transports total_carbon in
      let stays := filter (fun s => HotelStay.trip_id s =? trip_id) (hotel_stays db) in
      fold_left
        (fun total stay =>
           (total <- total ;;
            c <- calculate_hotel_stay_carbon (HotelStay.hotel_id stay)
                                             (HotelStay.number_of_nights stay)
                                             (Trip.number_of_tourists trip) db ;;
            Return (fadd total c))%py)
        stays (Return total_carbon)
  end.

(** The dict returned by [get_trip_carbon_breakdown]. *)
Record Breakdown : Type := mkBreakdown {
  flights_breakdown : list value;
  transport_breakdown : list value;
  hotels_breakdown : list value
}.

(** [get_trip_carbon_breakdown(trip_id, db)] *)
Definition get_trip_carbon_breakdown (trip_id : Z) (db : Store) : Breakdown :=
  mkBreakdown [] [] [].

(** ** Trips *)

(** The loop-carried variables of a component loop of [create_trip]: the
    running subtotal and the detail list. *)
Definition tally (D : Type) : Type := (pyfloat * list D)%type.

(** The rows [create_trip] builds, before the store numbers them. *)
Definition trip_row (trip : TripCreate.t) (current_agent : TravelAgent.t) : Trip.t :=
  Trip.mk 0 (TravelAgent.id current_agent) (TripCreate.trip_name trip)
          (TripCreate.trip_description trip) (TripCreate.number_of_tourists trip)
          (TripCreate.start_date trip) (TripCreate.end_date trip).

Definition flight_row (trip_id : Z) (flight_data : FlightSegmentCreate.t) : FlightSegment.t :=
  FlightSegment.mk 0 trip_id
    (FlightSegmentCreate.departure_airport flight_data)
    (FlightSegmentCreate.arrival_airport flight_data)
    (FlightSegmentCreate.transit_airports flight_data).

Definition transport_row (trip_id : Z) (transport_data : LocalTransportCreate.t)
  : LocalTransport.t :=
  LocalTransport.mk 0 trip_id
    (LocalTransportCreate.vehicle_type transport_data)
    (LocalTransportCreate.distance_km transport_data).

Definition stay_row (trip_id : Z) (hotel_data : HotelStayCreate.t) : HotelStay.t :=
  HotelStay.mk 0 trip_id
    (HotelStayCreate.hotel_id hotel_data)
    (HotelStayCreate.number_of_nights hotel_data)
    (HotelStayCreate.check_in_date hotel_data)
    (HotelStayCreate.check_out_date hotel_data).

(** The body of [for flight_data in trip.flight_segments]. *)
Definition flight_step (trip : TripCreate.t) (db_trip : Trip.t)
    (flight_data : FlightSegmentCreate.t) (acc : tally FlightDetail)
  : Eff.ST Session (tally FlightDetail) :=
  (let '(total_flights_carbon, flight_details) := acc in
   let db_flight := flight_row (Trip.id db_trip) flight_data in
   Eff.modify (add (RFlightSegment db_flight)) ;;
   let flight_carbon :=
     calculate_flight_carbon (FlightSegmentCreate.departure_airport flight_data)
                             (FlightSegmentCreate.arrival_airport flight_data)
                             (TripCreate.number_of_tourists trip) in
   Eff.ret
     (fadd total_flights_carbon flight_carbon,
      (flight_details
         ++ [mkFlightDetail
               (FlightSegmentCreate.departure_airport flight_data ++ " → "
                  ++ FlightSegmentCreate.arrival_airport flight_data)
               flight_carbon (TripCreate.number_of_tourists trip)])%list))%st.

(** The body of [for transport_data in trip.local_transports]. *)
Definition transport_step (trip : TripCreate.t) (db_trip : Trip.t)
    (transport_data : LocalTransportCreate.t) (acc : tally TransportDetail)
  : Eff.ST Session (tally TransportDetail) :=
  (let '(total_transport_carbon, transport_details) := acc in
   let db_transport := transport_row (Trip.id db_trip) transport_data in
   Eff.modify (add (RLocalTransport db_transport)) ;;
   let transport_carbon :=
     calculate_transport_carbon (LocalTransportCreate.vehicle_type transport_data)
                                (LocalTransportCreate.distance_km transport_data)
                                (TripCreate.number_of_tourists trip) in
   Eff.ret
     (fadd total_transport_carbon transport_carbon,
      (transport_details
         ++ [mkTransportDetail
               (LocalTransportCreate.vehicle_type transport_data)
               (LocalTransportCreate.distance_km transport_data)
               transport_carbon (TripCreate.number_of_tourists trip)])%list))%st.

(** The body of [for hotel_data in trip.hotel_stays]. *)
Definition stay_step (trip : TripCreate.t) (db_trip : Trip.t)
    (hotel_data : HotelStayCreate.t) (acc : tally HotelDetail)
  : Eff.ST Session (tally HotelDetail) :=
  (let '(total_hotels_carbon, hotel_details) := acc in
   let db_hotel_stay := stay_row (Trip.id db_trip) hotel_data in
   Eff.modify (add (RHotelStay db_hotel_stay)) ;;
   db <- Eff.get ;;
   hotel_carbon <-
     Eff.lift (calculate_hotel_stay_carbon
                 (HotelStayCreate.hotel_id hotel_data)
                 (HotelStayCreate.number_of_nights hotel_data)
                 (TripCreate.number_of_tourists trip) (store db)) ;;
   let hotel_record :=
     first (filter (fun h => Hotel.id h =? HotelStayCreate.hotel_id hotel_data)
                   (Database.hotels (store db))) in
   let hotel_name :=
     match hotel_record with
     | Some h => Hotel.name h
     | None => "Unknown Hotel"
     end in
   Eff.ret
     (fadd total_hotels_carbon hotel_carbon,
      (hotel_details
         ++ [mkHotelDetail hotel_name (HotelStayCreate.number_of_nights hotel_data)
                           hotel_carbon (TripCreate.number_of_tourists trip)])%list))%st.

(** [carbon_per_tourist = total_carbon / n if n > 0 else 0] *)
Definition carbon_per_tourist_of (total_carbon : pyfloat) (number_of_tourists : Z)
  : result pyfloat :=
  if 0 <? number_of_tourists
  then fdiv total_carbon (of_int number_of_tourists)
  else Return (of_int 0).

(** [create_trip(trip, current_agent, db)] *)
Definition create_trip (trip : TripCreate.t) (current_agent : TravelAgent.t)
  : Eff.ST Session TripCarbonResponse.t :=
  (let db_trip := trip_row trip current_agent in
   Eff.modify (add (RTrip db_trip)) ;;
   Eff.modify commit ;;
   (* db.refresh(db_trip): the row as the store numbered it *)
   db <- Eff.get ;;
   let db_trip := List.last (trips (store db)) db_trip in
   flights <-
     Eff.for_each (TripCreate.flight_segments trip) (flight_step trip db_trip) (Fin 0, []) ;;
   transports <-
     Eff.for_each (TripCreate.local_transports trip) (transport_step trip db_trip)
       (Fin 0, []) ;;
   hotels <-
     Eff.for_each (TripCreate.hotel_stays trip) (stay_step trip db_trip) (Fin 0, []) ;;
   (* commit all trip components *)
   Eff.modify commit ;;
   let '(total_flights_carbon, flight_details) := flights in
   let '(total_transport_carbon, transport_details) := transports in
   let '(total_hotels_carbon, hotel_details) := hotels in
   let total_carbon :=
     fadd (fadd total_flights_carbon total_transport_carbon) total_hotels_carbon in
   carbon_per_tourist <-
     Eff.lift (carbon_per_tourist_of total_carbon (TripCreate.number_of_tourists trip)) ;;
   Eff.ret
     (TripCarbonResponse.mk
        (Trip.id db_trip) (Trip.trip_name db_trip) (TripCreate.number_of_tourists trip)
        (round3 total_carbon) (round3 carbon_per_tourist)
        (round3 total_flights_carbon) (round3 total_transport_carbon)
        (round3 total_hotels_carbon)
        flight_details transport_details hotel_details))%st.

(** The child rows of a trip, in the order [create_trip] stages them. *)
Definition child_rows (trip : TripCreate.t) (trip_id : Z) : list Row :=
  (map (fun x => RFlightSegment (flight_row trip_id x)) (TripCreate.flight_segments trip)
   ++ map (fun x => RLocalTransport (transport_row trip_id x)) (TripCreate.local_transports trip)
   ++ map (fun x => RHotelStay (stay_row trip_id x)) (TripCreate.hotel_stays trip))%list.

(** One entry of the list returned by [get_my_trips]. *)
Record TripSummary : Type := mkTripSummary {
  ts_trip_id : Z;
  ts_trip_name : string;
  ts_number_of_tourists : Z;
  ts_start_date : Z;
  ts_end_date : Z;
  ts_total_carbon_kg : pyfloat;
  ts_carbon_per_tourist_kg : pyfloat
}.

(** The loop of [get_my_trips(current_agent, db)] *)
Fixpoint trip_summaries (ts : list Trip.t) (db : Store) : result (list TripSummary) :=
  match ts with
  | [] => Return []
  | trip :: rest =>
      (total_carbon <- calculate_trip_total_carbon (Trip.id trip) db ;;
       carbon_per_tourist <-
         carbon_per_tourist_of total_carbon (Trip.number_of_tourists trip) ;;
       more <- trip_summaries rest db ;;
       Return (mkTripSummary (Trip.id trip) (Trip.trip_name trip)
                             (Trip.number_of_tourists trip)
                             (Trip.start_date trip) (Trip.end_date trip)
                             (round3 total_carbon) (round3 carbon_per_tourist)
                 :: more))%py
  end.

(** [get_my_trips(current_agent, db)]: agent name, number of trips, trips *)
Definition get_my_trips (current_agent : TravelAgent.t) (db : Store)
  : result (string * Z * list TripSummary) :=
  let trips :=
    filter (fun t => Trip.travel_agent_id t =? TravelAgent.id current_agent) (trips db) in
  (summaries <- trip_summaries trips db ;;
   Return (TravelAgent.name current_agent, Z.of_nat (List.length summaries), summaries))%py.

(** The dict returned by [get_trip_carbon_details]; the three lists are
    the keys spliced in by [**carbon_breakdown]. *)
Record TripCarbonDetails : Type := mkTripCarbonDetails {
  tc_trip_id : Z;
  tc_trip_name : string;
  tc_number_of_tourists : Z;
  tc_total_carbon_kg : pyfloat;
  tc_carbon_per_tourist_kg : pyfloat;
  tc_flights_breakdown : list value;
  tc_transport_breakdown : list value;
  tc_hotels_breakdown : list value
}.

(** [get_trip_carbon_details(trip_id, current_agent, db)] *)
Definition get_trip_carbon_details (trip_id : Z) (current_agent : TravelAgent.t) (db : Store)
  : result TripCarbonDetails :=
  let trip :=
    first (filter (fun t => (Trip.id t =? trip_id)
                            && (Trip.travel_agent_id t =? TravelAgent.id current_agent))
                  (trips db)) in
  match trip with
  | None => Raise (HTTPException 404 "Trip not found")
  | Some trip =>
      (total_carbon <- calculate_trip_total_carbon trip_id db ;;
       let carbon_breakdown := get_trip_carbon_breakdown trip_id db in
       per_tourist <- fdiv total_carbon (of_int (Trip.number_of_tourists trip)) ;;
       Return (mkTripCarbonDetails
                 (Trip.id trip) (Trip.trip_name trip) (Trip.number_of_tourists trip)
                 (round3 total_carbon) (round3 per_tourist)
                 (flights_breakdown carbon_breakdown)
                 (transport_breakdown carbon_breakdown)
                 (hotels_breakdown carbon_breakdown)))%py
  end.

(** ** Bills *)

(** The S3 bucket: the objects stored under their keys, and whether the
    service answers. *)
Record Bucket : Type := mkBucket {
  objects : list (string * string);
  available : bool
}.

(** What a bill upload can change: the bucket and the database session. *)
Record World : Type := mkWorld {
  s3 : Bucket;
  db : Session
}.

(** [s3.upload_fileobj(fileobj, bucket, key)] *)
Definition upload_fileobj (content key : string) : Eff.ST World unit :=
  fun w =>
    if available (s3 w) then
      (Return tt, mkWorld (mkBucket (objects (s3 w) ++ [(key, content)]) true) (db w))
    else (Raise (ClientError "Could not connect to the endpoint URL"), w).

(** [db.add], [db.commit] and [db.refresh] of the bill. *)
Definition on_db (f : Session -> Session) : Eff.ST World unit :=
  Eff.modify (fun w => mkWorld (s3 w) (f (db w))).

(** The uploaded file: its name and its bytes. *)
Record UploadFile : Type := mkUploadFile {
  filename : string;
  file : string
}.

(** [datetime.now()]: the year, and the text of [.timestamp()]. *)
Record Clock : Type := mkClock {
  clock_year : Z;
  clock_timestamp : string
}.

Definition valid_units : list (string * list string) :=
  [ ("electricity", ["kWh"; "kw"; "kwh"; "kilowatt-hours"; "units"]);
    ("water", ["liters"; "litres"; "gallons"; "cubic meters"; "m3"; "l"; "gal"]) ].

Section Config.

(** The bucket name read from the environment. *)
Variable S3_BUCKET : string.

(** [upload_bill(bill_type, bill_month, bill_year, bill_amount, unit, file,
    current_hotel, db)]; [hotel_id] and [hotel_name] are the two entries of
    [current_hotel]. *)
Definition upload_bill (bill_type : string) (bill_month bill_year : Z)
    (bill_amount unit : string) (file_ : UploadFile)
    (hotel_id : Z) (hotel_name : string) (now : Clock)
  : Eff.ST World BillUploadResponse.t :=
  Eff.try_except
    (Eff.lift (raise_if (negb (str_in bill_type ["electricity"; "water"]))
                 (HTTPException 400 "Invalid bill type. Must be 'electricity' or 'water'")) ;;
     Eff.lift (raise_if (negb ((1 <=? bill_month) && (bill_month <=? 12)))
                 (HTTPException 400 "Invalid month. Must be between 1 and 12")) ;;
     let current_year := clock_year now in
     Eff.lift (raise_if ((bill_year <? 2020) || (current_year + 1 <? bill_year))
                 (HTTPException 400 ("Invalid year. Must be between 2020 and "
                                       ++ str_of_int (current_year + 1)))) ;;
     Eff.lift
       (Py.try_except
          (float_amount <- float bill_amount ;;
           raise_if (flt float_amount (of_int 0))
             (HTTPException 400 "Bill amount must be a positive number"))%py
          [ Except (Return C_ValueError)
              (fun _ => Raise (HTTPException 400
                 "Bill amount must be a valid number (e.g., '450' or '1250.75')")) ]) ;;
     Eff.lift (raise_if
                 (negb (str_in (lower unit)
                          (map lower (dict_get_default valid_units bill_type []))))
                 (HTTPException 400
                    ("Invalid unit for " ++ bill_type ++ ". Valid units: "
                       ++ join ", " (dict_get_default valid_units bill_type [])))) ;;
     (* file upload to S3 *)
     let timestamp := clock_timestamp now in
     let filename :=
       str_of_int hotel_id ++ "_" ++ bill_type ++ "_" ++ str_of_int bill_year ++ "_"
         ++ str_of_int bill_month ++ "_" ++ timestamp ++ "_" ++ filename file_ in
     upload_fileobj (file file_) filename ;;
     let file_url := "https://" ++ S3_BUCKET ++ ".s3.amazonaws.com/" ++ filename in
     (* database storage *)
     let db_bill :=
       UtilityBill.mk 0 hotel_id hotel_name bill_type bill_month bill_year
                      bill_amount unit file_url in
     on_db (add (RUtilityBill db_bill)) ;;
     on_db commit ;;
     w <- Eff.get ;;
     let db_bill := List.last (utility_bills (store (db w))) db_bill in
     Eff.ret
       (BillUploadResponse.mk
          (UtilityBill.id db_bill) (UtilityBill.bill_type db_bill)
          (UtilityBill.bill_month db_bill) (UtilityBill.bill_year db_bill)
          (UtilityBill.bill_amount db_bill) (UtilityBill.unit db_bill)
          (UtilityBill.file_url db_bill) "Bill uploaded successfully"))%st
    [ Except (Return C_HTTPException) (fun e => Raise e);
      Except (Return C_Exception)
        (fun e => Raise (HTTPException 500 ("Upload failed: " ++ str_of_exn e))) ].

End Config.

(** [get_my_bills(current_hotel, db)]: the list under the key [bills]. *)
Definition get_my_bills (hotel_id : Z) (db : Store) : list UtilityBill.t :=
  let bills := filter (fun b => UtilityBill.hotel_id b =? hotel_id) (utility_bills db) in
  bills.

(** ** Carbon footprint of a hotel *)

Definition emission_factors : list (string * pyfloat) :=
  [ ("electricity", Fin 0.5);
    ("water", Fin 0.001) ].

(** An entry of [breakdown]: consumption, emissions and unit. *)
Record UtilityTotals : Type := mkUtilityTotals {
  total_consumption : pyfloat;
  co2_emissions_kg : pyfloat;
  totals_unit : string
}.

(** An entry of [monthly_data]. *)
Record MonthlyEntry : Type := mkMonthlyEntry {
  me_month : Z;
  me_year : Z;
  electricity_kwh : pyfloat;
  water_liters : pyfloat;
  me_total_co2_kg : pyfloat
}.

(** The variables the loop over the bills updates. *)
Record Footprint : Type := mkFootprint {
  total_co2 : pyfloat;
  breakdown : list (string * UtilityTotals);
  monthly_data : list (string * MonthlyEntry)
}.

(** [d[k] = f(d[k])] for a key present in [d]. *)
Fixpoint dict_modify {V} (d : list (string * V)) (k : string) (f : V -> V)
  : list (string * V) :=
  match d with
  | [] => []
  | (k', v) :: rest =>
      if String.eqb k k' then (k', f v) :: rest else (k', v) :: dict_modify rest k f
  end.

(** [f"{z:02d}"] *)
Definition pad2 (z : Z) : string :=
  let s := str_of_int z in
  if (String.length s <? 2)%nat then "0" ++ s else s.

(** The body of [for bill in bills] in [calculate_carbon_footprint]: a
    bill whose amount does not parse leaves the variables as they were. *)
Definition footprint_step (acc : Footprint) (bill : UtilityBill.t) : result Footprint :=
  Py.try_except
    (amount <- float (UtilityBill.bill_amount bill) ;;
     let bill_type := lower (UtilityBill.bill_type bill) in
     let factor := dict_get_default emission_factors bill_type (of_int 0) in
     let co2_emissions := fmul amount factor in
     let total_co2 := fadd (total_co2 acc) co2_emissions in
     let breakdown :=
       dict_modify (breakdown acc) bill_type
         (fun u => mkUtilityTotals (fadd (total_consumption u) amount)
                                   (fadd (co2_emissions_kg u) co2_emissions)
                                   (totals_unit u)) in
     let month_key :=
       str_of_int (UtilityBill.bill_year bill) ++ "-" ++ pad2 (UtilityBill.bill_month bill) in
     let monthly_data :=
       match dict_get (monthly_data acc) month_key with
       | Some _ => monthly_data acc
       | None =>
           (monthly_data acc
              ++ [(month_key,
                   mkMonthlyEntry (UtilityBill.bill_month bill) (UtilityBill.bill_year bill)
                                  (of_int 0) (of_int 0) (of_int 0))])%list
       end in
     let monthly_data :=
       dict_modify monthly_data month_key
         (fun m =>
            mkMonthlyEntry (me_month m) (me_year m)
              (if String.eqb bill_type "electricity"
               then fadd (electricity_kwh m) amount else electricity_kwh m)
              (if String.eqb bill_type "electricity" then water_liters m
               else if String.eqb bill_type "water"
                    then fadd (water_liters m) amount else water_liters m)
              (fadd (me_total_co2_kg m) co2_emissions)) in
     Return (mkFootprint total_co2 breakdown monthly_data))%py
    [ Except (Return C_ValueError) (fun _ => Return acc);
      Except (Return C_TypeError) (fun _ => Return acc) ].

Fixpoint footprint_loop (bills : list UtilityBill.t) (acc : Footprint) : result Footprint :=
  match bills with
  | [] => Return acc
  | bill :: rest => (acc' <- footprint_step acc bill ;; footprint_loop rest acc')%py
  end.

(** The dict returned by [calculate_carbon_footprint].  [calculation_year]
    is [None] where the source writes "all years"; the formatted texts of
    [breakdown] are kept as the numbers and units they are built from. *)
Record FootprintResponse : Type := mkFootprintResponse {
  fr_hotel_name : string;
  calculation_year : option Z;
  total_co2_kg : pyfloat;
  fr_breakdown : list (string * UtilityTotals);
  monthly_breakdown : list MonthlyEntry
}.

(** The bills selected by the query: those of the hotel, of the given
    year when [year] is given and not zero. *)
Definition footprint_bills (year : option Z) (hotel_id : Z) (db : Store)
  : list UtilityBill.t :=
  let query := filter (fun b => UtilityBill.hotel_id b =? hotel_id) (utility_bills db) in
  match year with
  | Some y => if y =? 0 then query else filter (fun b => UtilityBill.bill_year b =? y) query
  | None => query
  end.

(** The loop variables before the first bill. *)
Definition footprint_init : Footprint :=
  mkFootprint (Fin 0)
    [ ("electricity", mkUtilityTotals (Fin 0) (Fin 0) "kWh");
      ("water", mkUtilityTotals (Fin 0) (Fin 0) "liters") ]
    [].

(** [calculate_carbon_footprint(year, current_hotel, db)] *)
Definition calculate_carbon_footprint (year : option Z) (hotel_id : Z) (hotel_name : string)
    (db : Store) : result FootprintResponse :=
  let bills := footprint_bills year hotel_id db in
  (acc <- footprint_loop bills footprint_init ;;
   Return (mkFootprintResponse
             hotel_name
             (match year with Some y => if y =? 0 then None else Some y | None => None end)
             (round3 (total_co2 acc))
             (breakdown acc)
             (map snd (monthly_data acc))))%py.

End Routes.

(* ------------------------------------------------------------------------- *)
(** * The factor table of the specification, and sample data *)
(* ------------------------------------------------------------------------- *)

Import Routes.

(** The per-vehicle factor as the specification gives it: a fixed table,
    and the factor of the car for a type the table does not have. *)
Definition spec_transport_factor (vehicle_type : string) : Q :=
  if String.eqb vehicle_type "bus" then 0.089%Q
  else if String.eqb vehicle_type "car" then 0.171%Q
  else if String.eqb vehicle_type "train" then 0.041%Q
  else if String.eqb vehicle_type "taxi" then 0.171%Q
  else if String.eqb vehicle_type "metro" then 0.033%Q
  else 0.171%Q.

(** The HTTP status a request ends with: that of the [HTTPException]; an
    exception of any other class reaches the server as a 500. *)
Definition status_of {A} (r : result A) : Z :=
  match r with
  | Return _ => 200
  | Raise (HTTPException status_code _) => status_code
  | Raise _ => 500
  end.

(** The two identity kinds, each with its own login endpoint. *)
Inductive identity_kind : Type := HotelKind | AgentKind.

Section Credentials.

Variable verify : string -> string -> bool.
Variable key : string.

(** [POST /auth/login] and [POST /auth/login-agent]. *)
Definition login_as (kind : identity_kind) (email password : string) (db : Store) (now : Z)
  : result Auth.LoginResponse :=
  match kind with
  | HotelKind => Auth.login verify key (HotelLogin.mk email password) db now
  | AgentKind => Auth.login_travel_agent verify key (TravelAgentLogin.mk email password) db now
  end.

(** The credentials are bad for a table of accounts: no account has the
    email, or the account that has it stores a hash the password does not
    verify against. *)
Definition bad_for {A} (email_of password_of : A -> string) (accounts : list A)
    (email password : string) : Prop :=
  match first (filter (fun a => String.eqb (email_of a) email) accounts) with
  | None => True
  | Some a => verify password (password_of a) = false
  end.

Definition bad_credentials (kind : identity_kind) (db : Store) (email password : string)
  : Prop :=
  match kind with
  | HotelKind => bad_for Hotel.email Hotel.password (hotels db) email password
  | AgentKind =>
      bad_for TravelAgent.email TravelAgent.password (travel_agents db) email password
  end.

End Credentials.

(** The running total of the footprint loop after one more bill: the
    bill's amount times the factor of its type, when the amount parses. *)
Definition add_bill_emission (total : pyfloat) (bill : UtilityBill.t) : pyfloat :=
  match float (UtilityBill.bill_amount bill) with
  | Return amount =>
      fadd total
           (fmul amount
                 (dict_get_default emission_factors (lower (UtilityBill.bill_type bill))
                                   (of_int 0)))
  | Raise _ => total
  end.


(** The checks of a bill upload in the order of the specification: the
    detail of the first check that fails, [None] when all pass.  The amount
    check is the one the code makes: the text parses and the number is not
    below 0. *)
Definition first_failure (bill_type : string) (bill_month bill_year : Z)
    (bill_amount unit : string) (current_year : Z) : option string :=
  if negb (str_in bill_type ["electricity"; "water"]) then
    Some "Invalid bill type. Must be 'electricity' or 'water'"
  else if negb ((1 <=? bill_month) && (bill_month <=? 12)) then
    Some "Invalid month. Must be between 1 and 12"
  else if (bill_year <? 2020) || (current_year + 1 <? bill_year) then
    Some ("Invalid year. Must be between 2020 and " ++ str_of_int (current_year + 1))
  else
    match float bill_amount with
    | Raise _ => Some "Bill amount must be a valid number (e.g., '450' or '1250.75')"
    | Return amount =>
        if flt amount (of_int 0) then Some "Bill amount must be a positive number"
        else if negb (str_in (lower unit)
                        (map lower (dict_get_default valid_units bill_type [])))
        then Some ("Invalid unit for " ++ bill_type ++ ". Valid units: "
                     ++ join ", " (dict_get_default valid_units bill_type []))
        else None
    end.

(** The amount of a bill parses as a number. *)
Definition amount_parses (bill : UtilityBill.t) : bool :=
  match float (UtilityBill.bill_amount bill) with
  | Return _ => true
  | Raise _ => false
  end.

(** The store with the bills whose amount does not parse left out. *)
Definition parsable_bills_only (st : Store) : Store :=
  mkStore (hotels st) (travel_agents st) (trips st) (flight_segments st)
          (local_transports st) (hotel_stays st)
          (filter amount_parses (utility_bills st)).

(** The hotel has at least one bill on record. *)
Definition hotel_has_bills (st : Store) (hotel_id : Z) : bool :=
  existsb (fun b => UtilityBill.hotel_id b =? hotel_id) (utility_bills st).

(** The entries [create_trip] appends to its detail lists, for a trip of
    [n] tourists; the stay entry is the one of a hotel without bills. *)
Definition flight_detail (n : Z) (x : FlightSegmentCreate.t) : FlightDetail :=
  mkFlightDetail
    (FlightSegmentCreate.departure_airport x ++ " → " ++ FlightSegmentCreate.arrival_airport x)
    (calculate_flight_carbon (FlightSegmentCreate.departure_airport x)
                             (FlightSegmentCreate.arrival_airport x) n)
    n.

Definition transport_detail (n : Z) (x : LocalTransportCreate.t) : TransportDetail :=
  mkTransportDetail
    (LocalTransportCreate.vehicle_type x) (LocalTransportCreate.distance_km x)
    (calculate_transport_carbon (LocalTransportCreate.vehicle_type x)
                                (LocalTransportCreate.distance_km x) n)
    n.

Definition stay_detail (st : Store) (n : Z) (x : HotelStayCreate.t) : HotelDetail :=
  mkHotelDetail
    match first (filter (fun h => Hotel.id h =? HotelStayCreate.hotel_id x) (hotels st)) with
    | Some h => Hotel.name h
    | None => "Unknown Hotel"
    end
    (HotelStayCreate.number_of_nights x)
    (default_stay_carbon (HotelStayCreate.number_of_nights x) n)
    n.

(** No stay of the trip is at a hotel with a bill on record. *)
Definition stays_without_bills (st : Store) (stays : list HotelStayCreate.t) : bool :=
  forallb (fun x => negb (hotel_has_bills st (HotelStayCreate.hotel_id x))) stays.

(** The outcome of a computation that can fail on the stay emission only. *)
Definition fails_on_stay_only {A} (r : result A) : Prop :=
  match r with
  | Return _ => True
  | Raise e => e = AttributeError "consumption_amount"
  end.

(** The rows staged for the children of a trip. *)
Definition is_child_row (r : Row) : Prop :=
  match r with
  | RFlightSegment _ | RLocalTransport _ | RHotelStay _ => True
  | RTrip _ | RUtilityBill _ => False
  end.

Module Sample.

(** A stand-in for [bcrypt.verify]: the hash of [p] is [p] behind a tag. *)
Definition verify (password hash : string) : bool :=
  String.eqb hash ("$2b$" ++ password).

(** The stand-in for [bcrypt.hash] that goes with [verify]. *)
Definition hash (password : string) : string := "$2b$" ++ password.

Definition secret : string := "your-secret-key-change-in-production".

Definition grand : Hotel.t :=
  Hotel.mk 1 "Grand Resort Hotel" "admin@grandresort.com" "$2b$securepassword123".

Definition sarah : TravelAgent.t :=
  TravelAgent.mk 1 "Sarah Travel" "sarah@travelagency.com" "$2b$securepass123"
                 (Some "Global Adventures Ltd").

Definition march_bill : UtilityBill.t :=
  UtilityBill.mk 1 1 "Grand Resort Hotel" "electricity" 3 2024 "1450.75" "kWh"
                 "https://bucket.s3.amazonaws.com/1_electricity_2024_3_1710234567.89_bill.pdf".

(** One hotel, one agent, no bill and no trip. *)
Definition accounts : Store :=
  mkStore [grand] [sarah] [] [] [] [] [].

(** The same with one bill on record for the hotel. *)
Definition with_bill : Store :=
  mkStore [grand] [sarah] [] [] [] [] [march_bill].

(** The same with a trip row whose [number_of_tourists] is 0. *)
Definition with_empty_trip : Store :=
  mkStore [grand] [sarah] [Trip.mk 1 1 "Cancelled Tour" None 0 0 0] [] [] [] [].

(** A trip of 15 tourists with one stay of 3 nights at the hotel. *)
Definition tour : TripCreate.t :=
  TripCreate.mk "European Adventure Tour" None 15 0 1209600
    [FlightSegmentCreate.mk "JFK" "LHR" None]
    [LocalTransportCreate.mk "bus" (Fin 250.5)]
    [HotelStayCreate.mk 1 3 54000 298800].



(** A second agent, and a store in which trip 1 is theirs. *)
Definition tom : TravelAgent.t :=
  TravelAgent.mk 2 "Tom Tours" "tom@tours.com" "$2b$tomspassword" None.

Definition with_foreign_trip : Store :=
  mkStore [grand] [sarah; tom] [Trip.mk 1 2 "City Break" None 4 0 0] [] [] [] [].

(** Registration requests: a new hotel, a new agent. *)
Definition new_hotel : HotelCreate.t :=
  HotelCreate.mk "Seaside Inn" "desk@seaside.com" "seasidepass".

Definition new_agent : TravelAgentCreate.t :=
  TravelAgentCreate.mk "Nina Voyages" "nina@voyages.com" "ninaspassword" None.

Definition bill_pdf : UploadFile := mkUploadFile "bill.pdf" "%PDF".

Definition clock : Clock := mkClock 2024 "1710234567.89".

(** The bucket answering and a fresh session on [accounts]. *)
Definition world : World := mkWorld (mkBucket [] true) (SessionLocal accounts).

End Sample.

(* ------------------------------------------------------------------------- *)
(** * Properties *)
(* ------------------------------------------------------------------------- *)

(** ** The number parser *)

Example float_reads_decimals :
  float "1450.75" = Return (Fin 1450.75)
  /\ float " 2_500 " = Return (Fin 2500)
  /\ float "-1.5e2" = Return (Fin (-150))
  /\ float ".5" = Return (Fin 0.5)
  /\ float "5." = Return (Fin 5).
Proof. repeat split. Qed.

Example float_reads_names :
  float "nan" = Return NaN
  /\ float "NaN" = Return NaN
  /\ float "inf" = Return (Inf false)
  /\ float "-Infinity" = Return (Inf true).
Proof. repeat split. Qed.

Example float_refuses :
  float "" = Raise ValueError
  /\ float "abc" = Raise ValueError
  /\ float "1__0" = Raise ValueError
  /\ float "1e" = Raise ValueError
  /\ float "12 kWh" = Raise ValueError.
Proof. repeat split. Qed.

(** ** Flights *)

(** Case analysis on every comparison of strings left in the goal. *)
Ltac case_strings :=
  repeat match goal with
         | |- context [String.eqb ?x ?y] =>
             destruct (String.eqb_spec x y); subst; cbn in *; try congruence
         end.

Lemma lookup_distance_symmetric (a b : string) :
  or_else (route_get airport_distances a b) (route_get airport_distances b a)
  = or_else (route_get airport_distances b a) (route_get airport_distances a b).
Proof.
  unfold airport_distances; cbn.
  case_strings; reflexivity.
Qed.

(** C8.  [calculate_flight_carbon] gives the same emission for a route and
    for the reverse route, whatever the two airport codes and the number of
    passengers. *)
Theorem flight_carbon_symmetric (a b : string) (p : Z) :
  calculate_flight_carbon a b p = calculate_flight_carbon b a p.
Proof.
  unfold calculate_flight_carbon.
  now rewrite lookup_distance_symmetric.
Qed.

(** The spec's example of an unknown route: 500 km by default. *)
Example flight_carbon_unknown_route :
  calculate_flight_carbon "XXX" "YYY" 10 = Fin (500 * 0.255 * 10)%Q.
Proof. reflexivity. Qed.

(** ** Local transport *)

Lemma transport_factor_refines (vehicle_type : string) :
  dict_get_default transport_factors vehicle_type (Fin 0.171)
  = Fin (spec_transport_factor vehicle_type).
Proof.
  unfold dict_get_default, transport_factors, spec_transport_factor; cbn.
  case_strings; reflexivity.
Qed.

(** C7, as the code has it.  [calculate_transport_carbon] is distance x
    factor x passengers, the factor being the table's entry for the
    lower-cased vehicle type and the car's factor for any other type; for a
    bus, 250.5 km and 15 passengers that is 334.4175. *)
Theorem transport_carbon_formula (vehicle_type : string) (distance_km : pyfloat) (p : Z) :
  calculate_transport_carbon vehicle_type distance_km p
  = fmul (fmul distance_km (Fin (spec_transport_factor (lower vehicle_type)))) (of_int p)
  /\ feq (calculate_transport_carbon "bus" (Fin 250.5) 15) (Fin 334.4175).
Proof.
  split.
  - unfold calculate_transport_carbon. now rewrite transport_factor_refines.
  - vm_compute. reflexivity.
Qed.

(** C7, as stated, fails on its own example: the emission computed for a
    bus, 250.5 km and 15 passengers is below 334.54. *)
Lemma transport_carbon_bus_below_334_54 :
  exists v : Q,
    calculate_transport_carbon "bus" (Fin 250.5) 15 = Fin v
    /\ (v < 334.54)%Q
    /\ ~ (334.54 <= v)%Q.
Proof.
  eexists. split; [reflexivity |].
  split; [reflexivity |].
  intros H. apply H. reflexivity.
Qed.

(** ** Hotel stays *)

Lemma consumption_amount_missing (bill : UtilityBill.t) :
  UtilityBill.getattr bill "consumption_amount" = Raise (AttributeError "consumption_amount").
Proof. reflexivity. Qed.

Lemma stay_bills_loop_raises (bill : UtilityBill.t) (rest : list UtilityBill.t)
    (acc : pyfloat * Z) :
  stay_bills_loop (bill :: rest) acc = Raise (AttributeError "consumption_amount").
Proof. destruct acc; reflexivity. Qed.

(** With a bill on record for the hotel, the stay emission is never
    computed: reading [consumption_amount] off the first bill raises. *)
Lemma hotel_stay_carbon_raises (hotel_id nights guests : Z) (db : Store) :
  filter (fun b => UtilityBill.hotel_id b =? hotel_id) (utility_bills db) <> [] ->
  calculate_hotel_stay_carbon hotel_id nights guests db
  = Raise (AttributeError "consumption_amount").
Proof.
  unfold calculate_hotel_stay_carbon.
  destruct (filter _ _) as [| bill rest]; [congruence |].
  intros _. now rewrite stay_bills_loop_raises.
Qed.

(** Without any bill on record the flat default applies. *)
Lemma hotel_stay_carbon_default (hotel_id nights guests : Z) (db : Store) :
  filter (fun b => UtilityBill.hotel_id b =? hotel_id) (utility_bills db) = [] ->
  calculate_hotel_stay_carbon hotel_id nights guests db
  = Return (default_stay_carbon nights guests).
Proof.
  unfold calculate_hotel_stay_carbon. now intros ->.
Qed.

(** The spec's example of a hotel without bills: 30 x 3 x 2 = 180. *)
Example hotel_stay_carbon_no_bills :
  exists v, calculate_hotel_stay_carbon 1 3 4 Sample.accounts = Return (Fin v)
            /\ (v == 180)%Q.
Proof. eexists. split; reflexivity. Qed.

(** C1 at the failing input: hotel 1 has one bill on record (1450.75 kWh
    of electricity) and the stay is 3 nights for 4 guests.  The claim
    promises 1450.75 x 0.708 / 30 x 3 x 2; the code raises
    [AttributeError], a [UtilityBill] having no [consumption_amount]. *)
Theorem hotel_stay_carbon_fails_with_bill_on_record :
  calculate_hotel_stay_carbon 1 3 4 Sample.with_bill
  = Raise (AttributeError "consumption_amount").
Proof. reflexivity. Qed.

(** ** Carbon per tourist *)

Lemma is_zero_of_int (n : Z) : is_zero (of_int n) = (n =? 0).
Proof.
  unfold is_zero, of_int, Qzero, Qcompare; cbn.
  rewrite Z.mul_1_r. now destruct n.
Qed.

Lemma fdiv_by_zero (a : pyfloat) : fdiv a (of_int 0) = Raise ZeroDivisionError.
Proof. reflexivity. Qed.

Lemma fdiv_of_int_returns (a : pyfloat) (n : Z) :
  n <> 0 -> exists q, fdiv a (of_int n) = Return q.
Proof.
  intros Hn. unfold fdiv. rewrite is_zero_of_int.
  destruct (Z.eqb_spec n 0); [contradiction | eauto].
Qed.

(** The detail read divides without a guard: for a trip row of 0 tourists
    that the agent owns and whose total computes, it raises. *)
Lemma trip_carbon_details_zero_tourists (trip_id : Z) (agent : TravelAgent.t) (db : Store)
    (trip : Trip.t) (total : pyfloat) :
  first (filter (fun t => (Trip.id t =? trip_id)
                          && (Trip.travel_agent_id t =? TravelAgent.id agent)) (trips db))
  = Some trip ->
  calculate_trip_total_carbon trip_id db = Return total ->
  Trip.number_of_tourists trip = 0 ->
  get_trip_carbon_details trip_id agent db = Raise ZeroDivisionError.
Proof.
  intros Hfound Htotal Hzero. unfold get_trip_carbon_details.
  rewrite Hfound, Htotal, Hzero. reflexivity.
Qed.

(** The listing of an agent's trips has the guard the detail read lacks. *)
Example my_trips_zero_tourists :
  exists s, get_my_trips Sample.sarah Sample.with_empty_trip
            = Return ("Sarah Travel", 1, [s])
            /\ ts_number_of_tourists s = 0
            /\ feq (ts_carbon_per_tourist_kg s) (Fin 0).
Proof.
  eexists. split; [vm_compute; reflexivity |].
  split; vm_compute; reflexivity.
Qed.


(** ** The breakdown of a trip *)

(** C9.  [get_trip_carbon_breakdown] returns three empty lists for every
    trip, so every answer of the detail read carries empty breakdowns next
    to its totals; and the detail read does answer, with the rounded total,
    for a trip the agent owns whose tourist count is not 0 and whose total
    computes. *)
Theorem trip_carbon_breakdown_empty :
  (forall trip_id db, get_trip_carbon_breakdown trip_id db = mkBreakdown [] [] [])
  /\ (forall trip_id agent db r,
        get_trip_carbon_details trip_id agent db = Return r ->
        tc_flights_breakdown r = [] /\ tc_transport_breakdown r = []
        /\ tc_hotels_breakdown r = [])
  /\ (forall trip_id agent db trip total,
        first (filter (fun t => (Trip.id t =? trip_id)
                                && (Trip.travel_agent_id t =? TravelAgent.id agent)) (trips db))
        = Some trip ->
        calculate_trip_total_carbon trip_id db = Return total ->
        Trip.number_of_tourists trip <> 0 ->
        exists r, get_trip_carbon_details trip_id agent db = Return r
                  /\ tc_total_carbon_kg r = round3 total
                  /\ tc_flights_breakdown r = [] /\ tc_transport_breakdown r = []
                  /\ tc_hotels_breakdown r = []).
Proof.
  split; [reflexivity |]. split.
  - intros trip_id agent db r. unfold get_trip_carbon_details.
    destruct (first _) as [trip |]; [| discriminate].
    destruct (calculate_trip_total_carbon trip_id db) as [total | e]; [| discriminate].
    cbn. destruct (fdiv total _) as [q | e]; [| discriminate].
    cbn. intros [= <-]. cbn. auto.
  - intros trip_id agent db trip total Hfound Htotal Hn.
    unfold get_trip_carbon_details. rewrite Hfound, Htotal. cbn.
    destruct (fdiv_of_int_returns total _ Hn) as [q ->]. cbn.
    eexists. split; [reflexivity |]. cbn. auto.
Qed.

(** ** Login *)

Section Login.

Variable verify : string -> string -> bool.
Variable key : string.

(** C4, as the code has it.  A login with bad credentials, of a hotel or of
    a travel agent, fails with status 400 and the one message "Invalid
    email or password", whether the email is unknown or the password is
    wrong. *)
Theorem login_bad_credentials (kind : identity_kind) (db : Store) (now : Z)
    (email password : string) :
  bad_credentials verify kind db email password ->
  login_as verify key kind email password db now
  = Raise (HTTPException 400 "Invalid email or password").
Proof.
  destruct kind; unfold bad_credentials, bad_for, login_as, Auth.login, Auth.login_travel_agent;
    cbn.
  - destruct (first _) as [h |]; [| reflexivity]. now intros ->.
  - destruct (first _) as [a |]; [| reflexivity]. now intros ->.
Qed.

(** What a successful login signs: the two claims of its identity kind and
    the expiry. *)
Lemma login_token (hotel : HotelLogin.t) (db : Store) (now : Z) (r : Auth.LoginResponse) :
  Auth.login verify key hotel db now = Return r ->
  exists id name,
    Auth.access_token r
    = Jwt.Signed key [("hotel_id", VInt id); ("hotel_name", VStr name);
                      ("exp", VInt (now + 24 * 3600))].
Proof.
  unfold Auth.login. destruct (first _) as [h |]; [| discriminate].
  destruct (verify _ _); [| discriminate]. cbn. intros [= <-].
  do 2 eexists. reflexivity.
Qed.

Lemma login_travel_agent_token (agent : TravelAgentLogin.t) (db : Store) (now : Z)
    (r : Auth.LoginResponse) :
  Auth.login_travel_agent verify key agent db now = Return r ->
  exists id name,
    Auth.access_token r
    = Jwt.Signed key [("agent_id", VInt id); ("agent_name", VStr name);
                      ("exp", VInt (now + 24 * 3600))].
Proof.
  unfold Auth.login_travel_agent. destruct (first _) as [a |]; [| discriminate].
  destruct (verify _ _); [| discriminate]. cbn. intros [= <-].
  do 2 eexists. reflexivity.
Qed.

(** A token of an agent login never passes the hotel verifier: 401. *)
Lemma agent_token_at_hotel_verifier (agent : TravelAgentLogin.t) (db : Store) (now now' : Z)
    (r : Auth.LoginResponse) :
  Auth.login_travel_agent verify key agent db now = Return r ->
  Auth.get_current_hotel key (Auth.access_token r) now'
  = Raise (HTTPException 401
             (if now + 24 * 3600 <=? now' then "Token has expired"
              else "Invalid token: missing hotel information")).
Proof.
  intros H. destruct (login_travel_agent_token _ _ _ _ H) as (id & name & ->).
  unfold Auth.get_current_hotel; cbn.
  rewrite String.eqb_refl.
  change (24 * 3600) with 86400.
  destruct (now + 86400 <=? now'); reflexivity.
Qed.

(** A token of a hotel login never passes the agent verifier either; but
    while it has not expired, the 401 raised for the missing [agent_id] is
    lost: the clause [except jwt.JWTError] names an attribute the package
    does not have, and the request ends with that [AttributeError]. *)
Lemma hotel_token_at_agent_verifier (hotel : HotelLogin.t) (db db' : Store) (now now' : Z)
    (r : Auth.LoginResponse) :
  Auth.login verify key hotel db now = Return r ->
  Auth.get_current_travel_agent key (Auth.access_token r) db' now'
  = if now + 24 * 3600 <=? now' then Raise (HTTPException 401 "Token has expired")
    else Raise (AttributeError "JWTError").
Proof.
  intros H. destruct (login_token _ _ _ _ H) as (id & name & ->).
  unfold Auth.get_current_travel_agent; cbn.
  rewrite String.eqb_refl.
  change (24 * 3600) with 86400.
  destruct (now + 86400 <=? now'); reflexivity.
Qed.

End Login.

(** C4 at a wrong password (hotel) and at an unknown email (agent). *)
Lemma login_bad_credentials_witness :
  (bad_credentials Sample.verify HotelKind Sample.accounts "admin@grandresort.com" "guess"
   /\ login_as Sample.verify Sample.secret HotelKind "admin@grandresort.com" "guess"
        Sample.accounts 0
      = Raise (HTTPException 400 "Invalid email or password"))
  /\ (bad_credentials Sample.verify AgentKind Sample.accounts "nobody@travelagency.com"
        "securepass123"
      /\ login_as Sample.verify Sample.secret AgentKind "nobody@travelagency.com"
           "securepass123" Sample.accounts 0
         = Raise (HTTPException 400 "Invalid email or password")).
Proof.
  split; (split; [vm_compute; reflexivity |]).
  - apply (login_bad_credentials Sample.verify Sample.secret HotelKind). vm_compute; reflexivity.
  - apply (login_bad_credentials Sample.verify Sample.secret AgentKind). exact I.
Defined.

(** C4, as stated, fails: a login with an unknown email does not end with
    status 401 (nor does one with a wrong password). *)
Lemma login_bad_credentials_not_401 :
  bad_credentials Sample.verify HotelKind Sample.accounts "nobody@grandresort.com" "guess"
  /\ status_of (Auth.login Sample.verify Sample.secret
                  (HotelLogin.mk "nobody@grandresort.com" "guess") Sample.accounts 0) <> 401
  /\ bad_credentials Sample.verify AgentKind Sample.accounts "sarah@travelagency.com" "guess"
  /\ status_of (Auth.login_travel_agent Sample.verify Sample.secret
                  (TravelAgentLogin.mk "sarah@travelagency.com" "guess") Sample.accounts 0)
     <> 401.
Proof.
  repeat split; try (vm_compute; reflexivity); vm_compute; discriminate.
Qed.

(** C10 at the failing input: the hotel logs in at time 0 and presents its
    token, one hour later, to the verifier of the travel agents.  The claim
    promises a 401; the request ends with an [AttributeError], status 500. *)
Theorem hotel_token_at_agent_verifier_not_401 :
  exists r,
    Auth.login Sample.verify Sample.secret
      (HotelLogin.mk "admin@grandresort.com" "securepassword123") Sample.accounts 0
    = Return r
    /\ Auth.get_current_travel_agent Sample.secret (Auth.access_token r) Sample.accounts 3600
       = Raise (AttributeError "JWTError")
    /\ status_of (Auth.get_current_travel_agent Sample.secret (Auth.access_token r)
                    Sample.accounts 3600) = 500.
Proof.
  eexists. split; [vm_compute; reflexivity |]. split; reflexivity.
Qed.

(** ** Trip creation and the store *)

Lemma session_eta (s : Session) : mkSession (store s) (pending s) = s.
Proof. now destruct s. Qed.

(** A loop whose body stages one row and returns stages them all. *)
Lemma for_each_stages {X Acc} (row : X -> Row) (body : X -> Acc -> Eff.ST Session Acc) :
  (forall x acc s, exists acc', body x acc s = (Return acc', add (row x) s)) ->
  forall xs acc s, exists acc',
    Eff.for_each xs body acc s
    = (Return acc', mkSession (store s) (pending s ++ map row xs)).
Proof.
  intros Hbody xs. induction xs as [| x xs IH]; intros acc s; cbn.
  - exists acc. unfold Eff.ret. now rewrite app_nil_r, session_eta.
  - unfold Eff.bind. destruct (Hbody x acc s) as [acc1 ->].
    destruct (IH acc1 (add (row x) s)) as [acc2 ->].
    exists acc2. cbn. now rewrite <- app_assoc.
Qed.

(** A loop whose body stages one row and then returns or raises either
    stages them all or raises with the store as it was. *)
Lemma for_each_stages_or_raises {X Acc} (row : X -> Row)
    (body : X -> Acc -> Eff.ST Session Acc) :
  (forall x acc s, exists r, body x acc s = (r, add (row x) s)) ->
  forall xs acc s,
    (exists acc', Eff.for_each xs body acc s
                  = (Return acc', mkSession (store s) (pending s ++ map row xs)))
    \/ (exists e s', Eff.for_each xs body acc s = (Raise e, s') /\ store s' = store s).
Proof.
  intros Hbody xs. induction xs as [| x xs IH]; intros acc s; cbn.
  - left. exists acc. unfold Eff.ret. now rewrite app_nil_r, session_eta.
  - unfold Eff.bind. destruct (Hbody x acc s) as [[acc1 | e] ->].
    + destruct (IH acc1 (add (row x) s)) as [[acc2 ->] | (e & s' & -> & Hs')].
      * left. exists acc2. cbn. now rewrite <- app_assoc.
      * right. now exists e, s'.
    + right. now exists e, (add (row x) s).
Qed.

Lemma flight_step_stages (trip : TripCreate.t) (db_trip : Trip.t) x acc s :
  exists acc', flight_step trip db_trip x acc s
               = (Return acc', add (RFlightSegment (flight_row (Trip.id db_trip) x)) s).
Proof. destruct acc. eexists. reflexivity. Qed.

Lemma transport_step_stages (trip : TripCreate.t) (db_trip : Trip.t) x acc s :
  exists acc', transport_step trip db_trip x acc s
               = (Return acc', add (RLocalTransport (transport_row (Trip.id db_trip) x)) s).
Proof. destruct acc. eexists. reflexivity. Qed.

Lemma stay_step_stages (trip : TripCreate.t) (db_trip : Trip.t) x acc s :
  exists r, stay_step trip db_trip x acc s
            = (r, add (RHotelStay (stay_row (Trip.id db_trip) x)) s).
Proof.
  destruct acc. unfold stay_step, Eff.bind, Eff.modify, Eff.get, Eff.lift, Eff.ret.
  destruct (calculate_hotel_stay_carbon _ _ _ _); eexists; reflexivity.
Qed.

Lemma carbon_per_tourist_of_returns (total : pyfloat) (n : Z) :
  exists q, carbon_per_tourist_of total n = Return q.
Proof.
  unfold carbon_per_tourist_of. destruct (Z.ltb_spec 0 n); [| eauto].
  apply fdiv_of_int_returns. lia.
Qed.

(** C3, as the code has it.  [create_trip] commits the trip row before it
    processes any child and commits the child rows together at the end:
    when the request fails, the store holds the new trip row and none of
    its children; when it succeeds, the store holds the trip row and all
    its child rows. *)
Theorem create_trip_commits_trip_first (trip : TripCreate.t) (agent : TravelAgent.t)
    (st : Store) :
  match get_db (create_trip trip agent) st with
  | (Raise _, st') => st' = insert st (RTrip (trip_row trip agent))
  | (Return r, st') =>
      st' = fold_left insert (child_rows trip (TripCarbonResponse.trip_id r))
                      (insert st (RTrip (trip_row trip agent)))
  end.
Proof.
  unfold get_db, create_trip, SessionLocal.
  unfold Eff.bind, Eff.modify, Eff.get, Eff.lift, Eff.ret. cbv beta iota.
  change (commit (add (RTrip (trip_row trip agent)) (mkSession st [])))
    with (mkSession (insert st (RTrip (trip_row trip agent))) []).
  cbn [store].
  set (st1 := insert st (RTrip (trip_row trip agent))).
  set (db_trip := List.last (trips st1) (trip_row trip agent)).
  destruct (for_each_stages _ _ (flight_step_stages trip db_trip)
              (TripCreate.flight_segments trip) (Fin 0, []) (mkSession st1 []))
    as [[tf df] ->].
  cbn [store pending app].
  match goal with
  | |- context [Eff.for_each _ (transport_step _ _) ?acc ?s] =>
      destruct (for_each_stages _ _ (transport_step_stages trip db_trip)
                  (TripCreate.local_transports trip) acc s) as [[tt dt] ->]
  end.
  cbn [store pending].
  match goal with
  | |- context [Eff.for_each _ (stay_step _ _) ?acc ?s] =>
      destruct (for_each_stages_or_raises _ _ (stay_step_stages trip db_trip)
                  (TripCreate.hotel_stays trip) acc s)
        as [[[th dh] ->] | (e & s' & -> & Hs')]
  end.
  - destruct (carbon_per_tourist_of_returns (fadd (fadd tf tt) th)
                (TripCreate.number_of_tourists trip)) as [q ->].
    cbn [TripCarbonResponse.trip_id close store commit pending].
    unfold child_rows. now rewrite <- app_assoc.
  - cbn [close store]. exact Hs'.
Qed.

(** C3, as stated, fails: the stay at a hotel with a bill on record makes
    [create_trip] raise after the trip row was committed; the request
    fails and the trip row is in the store, without any child row. *)
Lemma create_trip_failure_leaves_trip_row :
  fst (get_db (create_trip Sample.tour Sample.sarah) Sample.with_bill)
  = Raise (AttributeError "consumption_amount")
  /\ trips Sample.with_bill = []
  /\ trips (snd (get_db (create_trip Sample.tour Sample.sarah) Sample.with_bill))
     = [Trip.mk 1 1 "European Adventure Tour" None 15 0 1209600]
  /\ trips (snd (get_db (create_trip Sample.tour Sample.sarah) Sample.with_bill))
     <> trips Sample.with_bill
  /\ flight_segments (snd (get_db (create_trip Sample.tour Sample.sarah) Sample.with_bill))
     = [].
Proof.
  repeat split; try reflexivity. vm_compute. discriminate.
Qed.

(** The same trip on a store without bills is stored with its children. *)
Example create_trip_success_stores_children :
  exists r st',
    get_db (create_trip Sample.tour Sample.sarah) Sample.accounts = (Return r, st')
    /\ List.length (trips st') = 1%nat
    /\ List.length (flight_segments st') = 1%nat
    /\ List.length (local_transports st') = 1%nat
    /\ List.length (hotel_stays st') = 1%nat.
Proof. do 2 eexists. split; [vm_compute; reflexivity | repeat split]. Qed.

(** ** Bill upload *)

Lemma float_raises_ValueError (s : string) (e : exn) :
  float s = Raise e -> e = ValueError.
Proof.
  unfold float. destruct (sign (lstrip s)) as [neg body].
  destruct (floatnumber body) as [[q rest] |].
  - destruct (all_space rest); congruence.
  - destruct (_ || _); [discriminate |].
    destruct (names "nan" _); congruence.
Qed.

(** [float] reads the text nan as a number that is not below 0, and not
    at or above 0 either. *)
Lemma float_nan :
  float "nan" = Return NaN /\ flt NaN (of_int 0) = false /\ fge NaN (of_int 0) = false.
Proof. repeat split. Qed.

(** C5 at the failing input: an electricity bill for March 2024 whose
    amount is the text nan, in kWh.  The claim promises a rejection before
    any upload or write, and a non-negative amount in every stored bill;
    the code uploads the file and stores the bill, whose amount parses to
    a value that is not non-negative. *)
Theorem upload_bill_stores_nan_amount :
  exists resp w bill,
    upload_bill "bucket" "electricity" 3 2024 "nan" "kWh" Sample.bill_pdf
                1 "Grand Resort Hotel" Sample.clock Sample.world
    = (Return resp, w)
    /\ List.length (objects (s3 w)) = 1%nat
    /\ utility_bills (store (db w)) = [bill]
    /\ UtilityBill.bill_amount bill = "nan"
    /\ float (UtilityBill.bill_amount bill) = Return NaN
    /\ fge NaN (of_int 0) = false.
Proof.
  do 3 eexists. split; [vm_compute; reflexivity |]. repeat split.
Qed.

(** What holds of every upload: the checks run in the order bill type,
    month, year, amount, unit, and the first that fails gives the 400 and
    leaves the bucket and the store untouched; when all pass and the bucket
    answers, the file is uploaded and one bill is stored, with an amount
    that parses to a number not below 0 and a unit of its type's list. *)
Lemma upload_bill_validation (bucket bill_type : string) (bill_month bill_year : Z)
    (bill_amount unit : string) (f : UploadFile) (hotel_id : Z) (hotel_name : string)
    (now : Clock) (w : World) :
  match first_failure bill_type bill_month bill_year bill_amount unit (clock_year now) with
  | Some detail =>
      upload_bill bucket bill_type bill_month bill_year bill_amount unit f
                  hotel_id hotel_name now w
      = (Raise (HTTPException 400 detail), w)
  | None =>
      if available (s3 w) then
        exists resp w' url amount,
          upload_bill bucket bill_type bill_month bill_year bill_amount unit f
                      hotel_id hotel_name now w
          = (Return resp, w')
          /\ store (db w')
             = fold_left insert
                 (pending (db w)
                    ++ [RUtilityBill (UtilityBill.mk 0 hotel_id hotel_name bill_type bill_month
                                                     bill_year bill_amount unit url)])
                 (store (db w))
          /\ float bill_amount = Return amount
          /\ flt amount (of_int 0) = false
          /\ str_in (lower unit) (map lower (dict_get_default valid_units bill_type [])) = true
      else
        exists detail,
          upload_bill bucket bill_type bill_month bill_year bill_amount unit f
                      hotel_id hotel_name now w
          = (Raise (HTTPException 500 detail), w)
  end.
Proof.
  unfold first_failure, upload_bill, Eff.try_except, Eff.bind, Eff.lift, raise_if.
  destruct (negb (str_in bill_type _)); [reflexivity |].
  destruct (negb (_ && _)); [reflexivity |].
  destruct (_ || _); [reflexivity |].
  destruct (float bill_amount) as [amount | e] eqn:Hamount; cbn [Py.try_except Py.bind].
  - destruct (flt amount (of_int 0)) eqn:Hneg; [reflexivity |].
    cbn [Py.try_except].
    destruct (str_in (lower unit) _) eqn:Hunit; [| reflexivity].
    cbn [negb]. unfold upload_fileobj.
    destruct (available (s3 w)).
    + do 4 eexists. split; [reflexivity |].
      split; [reflexivity |]. auto.
    + eexists. reflexivity.
  - rewrite (float_raises_ValueError _ _ Hamount). reflexivity.
Qed.

(** ** Carbon footprint *)


Lemma feq_sym (a b : pyfloat) : feq a b -> feq b a.
Proof. destruct a, b; cbn; auto. intros H. now symmetry. Qed.












Lemma footprint_step_total (acc : Footprint) (bill : UtilityBill.t) :
  exists acc', footprint_step acc bill = Return acc'
               /\ total_co2 acc' = add_bill_emission (total_co2 acc) bill.
Proof.
  unfold footprint_step, add_bill_emission.
  destruct (float (UtilityBill.bill_amount bill)) as [amount | e] eqn:Hamount.
  - eexists. split; reflexivity.
  - rewrite (float_raises_ValueError _ _ Hamount). eexists. split; reflexivity.
Qed.

(** The loop over the bills always ends, and its [total_co2] is the sum
    of the emissions of the bills whose amount parses. *)
Lemma footprint_loop_total (bills : list UtilityBill.t) (acc : Footprint) :
  exists acc', footprint_loop bills acc = Return acc'
               /\ total_co2 acc' = fold_left add_bill_emission bills (total_co2 acc).
Proof.
  revert acc. induction bills as [| bill rest IH]; intros acc; cbn.
  - eauto.
  - destruct (footprint_step_total acc bill) as (acc1 & -> & H1). cbn.
    destruct (IH acc1) as (acc2 & -> & H2). exists acc2. now rewrite H2, H1.
Qed.








(** ** More on the carbon per tourist *)

(** The detail read of an owned trip with tourists reports the rounded
    quotient of the total by the tourist count. *)
Lemma trip_carbon_details_per_tourist (trip_id : Z) (agent : TravelAgent.t) (db : Store)
    (trip : Trip.t) (total q : pyfloat) :
  first (filter (fun t => (Trip.id t =? trip_id)
                          && (Trip.travel_agent_id t =? TravelAgent.id agent)) (trips db))
  = Some trip ->
  calculate_trip_total_carbon trip_id db = Return total ->
  fdiv total (of_int (Trip.number_of_tourists trip)) = Return q ->
  exists r, get_trip_carbon_details trip_id agent db = Return r
            /\ tc_total_carbon_kg r = round3 total
            /\ tc_carbon_per_tourist_kg r = round3 q.
Proof.
  intros Hfound Htotal Hq. unfold get_trip_carbon_details.
  rewrite Hfound, Htotal. cbn [Py.bind]. rewrite Hq.
  eexists. split; [reflexivity |]. split; reflexivity.
Qed.

(** The guarded quotient of [create_trip] and [get_my_trips]: the quotient
    for a positive tourist count, 0 otherwise. *)
Lemma carbon_per_tourist_of_guarded (total : pyfloat) (n : Z) :
  (0 < n -> carbon_per_tourist_of total n = fdiv total (of_int n))
  /\ (n <= 0 -> carbon_per_tourist_of total n = Return (of_int 0)).
Proof.
  unfold carbon_per_tourist_of. split; intros H.
  - destruct (Z.ltb_spec 0 n); [reflexivity | lia].
  - destruct (Z.ltb_spec 0 n); [lia | reflexivity].
Qed.

(** Every answer of [create_trip] reports the rounded total and the
    rounded guarded quotient of the unrounded total. *)
Lemma create_trip_per_tourist (trip : TripCreate.t) (agent : TravelAgent.t)
    (s s' : Session) (r : TripCarbonResponse.t) :
  create_trip trip agent s = (Return r, s') ->
  exists total q,
    carbon_per_tourist_of total (TripCreate.number_of_tourists trip) = Return q
    /\ TripCarbonResponse.total_carbon_kg r = round3 total
    /\ TripCarbonResponse.carbon_per_tourist_kg r = round3 q.
Proof.
  unfold create_trip, Eff.bind, Eff.modify, Eff.get, Eff.lift, Eff.ret. cbv beta iota.
  destruct (Eff.for_each _ (flight_step _ _) _ _) as [[[tf df] | e] s1]; [| discriminate].
  destruct (Eff.for_each _ (transport_step _ _) _ _) as [[[tt dt] | e] s2]; [| discriminate].
  destruct (Eff.for_each _ (stay_step _ _) _ _) as [[[th dh] | e] s3]; [| discriminate].
  destruct (carbon_per_tourist_of _ _) as [q | e] eqn:Hq; [| discriminate].
  intros [= <- _]. exists (fadd (fadd tf tt) th), q. auto.
Qed.

(* ------------------------------------------------------------------------- *)
(** * Further properties of the code *)
(* ------------------------------------------------------------------------- *)

(** ** Tokens *)

Lemma first_filter_In {A} (p : A -> bool) (l : list A) (a : A) :
  first (filter p l) = Some a -> In a l /\ p a = true.
Proof.
  intros H. assert (Hin : In a (filter p l)).
  { destruct (filter p l) as [| x rest]; [discriminate |].
    injection H as ->. now left. }
  now apply filter_In in Hin.
Qed.

Lemma first_filter_none {A} (p : A -> bool) (l : list A) :
  (forall a, In a l -> p a = false) -> first (filter p l) = None.
Proof.
  intros H. induction l as [| x l IH]; [reflexivity |]. cbn.
  rewrite (H x (or_introl eq_refl)). apply IH. intros a Ha. apply H. now right.
Qed.

(** A key of a row singles the row out in a table without repeated keys. *)
Lemma unique_key {A} (key_of : A -> Z) (l : list A) (a b : A) :
  NoDup (map key_of l) -> In a l -> In b l -> key_of a = key_of b -> a = b.
Proof.
  induction l as [| x l IH]; cbn; [tauto |].
  intros Hnd [-> | Ha] [-> | Hb] Hk; inversion Hnd as [| ? ? Hnotin Hnd']; subst.
  - reflexivity.
  - exfalso. apply Hnotin. rewrite Hk. now apply in_map.
  - exfalso. apply Hnotin. rewrite <- Hk. now apply in_map.
  - now apply IH.
Qed.

(** The claim set by [update] is the one [get] reads back, whatever the
    dict held under the key before. *)
Lemma dict_update_get (d : Jwt.claims) (k : string) (v : value) :
  dict_get (Auth.dict_update d k v) k = Some v.
Proof.
  unfold Auth.dict_update. induction d as [| [k' v'] d IH]; cbn.
  - now rewrite String.eqb_refl.
  - destruct (String.eqb_spec k' k) as [-> | Hne]; cbn; [exact IH |].
    destruct (String.eqb_spec k k'); [congruence | exact IH].
Qed.

Section Tokens.

Variable verify : string -> string -> bool.
Variable key : string.

(** A hotel that logs in and presents its token within 24 hours is
    recognised under the id and name of its account; an account whose id
    is 0 or whose name is empty is refused with a 401. *)
Theorem hotel_token_round_trip (hotel : HotelLogin.t) (db : Store) (now now' : Z)
    (r : Auth.LoginResponse) :
  Auth.login verify key hotel db now = Return r ->
  now' < now + 24 * 3600 ->
  Auth.get_current_hotel key (Auth.access_token r) now'
  = if (Auth.subject_id r =? 0) || String.eqb (Auth.subject_name r) ""
    then Raise (HTTPException 401 "Invalid token: missing hotel information")
    else Return (Auth.mkCurrentHotel (VInt (Auth.subject_id r)) (VStr (Auth.subject_name r))).
Proof.
  unfold Auth.login. destruct (first _) as [h |]; [| discriminate].
  destruct (verify _ _); [| discriminate]. cbn. intros [= <-] Hfresh.
  unfold Auth.get_current_hotel; cbn.
  rewrite String.eqb_refl. change (24 * 3600) with 86400 in Hfresh.
  destruct (Z.leb_spec (now + 86400) now'); [lia |].
  cbn. destruct (Hotel.id h =? 0); [reflexivity |].
  destruct (String.eqb (Hotel.name h) ""); reflexivity.
Qed.


(** A token is refused as expired by both verifiers from 24 hours after
    its issue on, whatever claims it was issued for. *)
Theorem expired_token_rejected (data : Jwt.claims) (db : Store) (now now' : Z) :
  now + 24 * 3600 <= now' ->
  Auth.get_current_hotel key (Auth.create_access_token key data now) now'
  = Raise (HTTPException 401 "Token has expired")
  /\ Auth.get_current_travel_agent key (Auth.create_access_token key data now) db now'
     = Raise (HTTPException 401 "Token has expired").
Proof.
  intros Hlate.
  unfold Auth.get_current_hotel, Auth.get_current_travel_agent, Auth.create_access_token,
    Jwt.encode, Jwt.decode.
  rewrite String.eqb_refl, dict_update_get.
  destruct (Z.leb_spec (now + 24 * 3600) now'); [| lia].
  split; reflexivity.
Qed.


(** An agent that logs in and presents its token within 24 hours, to a
    store whose agent ids are not repeated, is recognised as the account
    it logged in with. *)
Theorem agent_token_round_trip (agent : TravelAgentLogin.t) (db : Store) (now now' : Z)
    (r : Auth.LoginResponse) :
  Auth.login_travel_agent verify key agent db now = Return r ->
  NoDup (map TravelAgent.id (travel_agents db)) ->
  now' < now + 24 * 3600 ->
  exists a,
    Auth.get_current_travel_agent key (Auth.access_token r) db now' = Return a
    /\ TravelAgent.id a = Auth.subject_id r
    /\ TravelAgent.email a = TravelAgentLogin.email agent
    /\ verify (TravelAgentLogin.password agent) (TravelAgent.password a) = true.
Proof.
  unfold Auth.login_travel_agent.
  destruct (first _) as [a |] eqn:Hfound; [| discriminate].
  destruct (verify _ _) eqn:Hpw; [| discriminate]. cbn. intros [= <-] Hnd Hfresh.
  exists a. apply first_filter_In in Hfound. destruct Hfound as [Hin Hemail].
  apply String.eqb_eq in Hemail.
  unfold Auth.get_current_travel_agent; cbn.
  rewrite String.eqb_refl. change (24 * 3600) with 86400 in Hfresh.
  destruct (Z.leb_spec (now + 86400) now'); [lia |]. cbn.
  destruct (first (filter _ _)) as [a' |] eqn:Hfirst.
  - apply first_filter_In in Hfirst. destruct Hfirst as [Hin' Hid].
    apply Z.eqb_eq in Hid.
    rewrite (unique_key TravelAgent.id _ a' a Hnd Hin' Hin Hid). cbn. auto.
  - exfalso.
    assert (Hnone : In a (filter (fun x => TravelAgent.id x =? TravelAgent.id a)
                                 (travel_agents db))).
    { apply filter_In. split; [exact Hin | apply Z.eqb_refl]. }
    unfold first in Hfirst. destruct (filter _ _); [contradiction | discriminate].
Qed.

End Tokens.

(** ** Registration *)

Lemma first_filter_none_inv {A} (p : A -> bool) (l : list A) :
  first (filter p l) = None -> filter p l = [].
Proof. now destruct (filter p l). Qed.

Lemma filter_nil_forall {A} (p : A -> bool) (l : list A) (a : A) :
  filter p l = [] -> In a l -> p a = false.
Proof.
  intros Hnil Hin. destruct (p a) eqn:Hp; [| reflexivity].
  assert (Hf : In a (filter p l)) by (apply filter_In; auto).
  rewrite Hnil in Hf. contradiction.
Qed.

(** The key given to a new row is above every key of the table. *)
Lemma next_id_fresh {A} (id : A -> Z) (rows : list A) (r : A) :
  In r rows -> id r < next_id id rows.
Proof.
  unfold next_id. induction rows as [| x rows IH]; cbn [fold_right]; [intros [] |].
  intros [-> | Hin]; [lia |]. specialize (IH Hin). lia.
Qed.

Lemma NoDup_map_snoc {A B} (f : A -> B) (l : list A) (x : A) :
  NoDup (map f l) -> ~ In (f x) (map f l) -> NoDup (map f (l ++ [x])).
Proof.
  intros Hnd Hnew. rewrite map_app. cbn.
  apply NoDup_app; [exact Hnd | repeat constructor; intros [] |].
  intros b Hb [<- | []]. contradiction.
Qed.

Lemma NoDup_ids_snoc {A} (id : A -> Z) (with_key : Z -> A) (rows : list A) :
  id (with_key (next_id id rows)) = next_id id rows ->
  NoDup (map id rows) -> NoDup (map id (rows ++ [with_key (next_id id rows)])).
Proof.
  intros Hkey Hnd. apply NoDup_map_snoc; [exact Hnd |].
  rewrite Hkey. intros Hin. apply in_map_iff in Hin. destruct Hin as (r & Hr & Hin).
  pose proof (next_id_fresh id rows r Hin). lia.
Qed.

Section Registration.

Variable verify : string -> string -> bool.
Variable hash : string -> string.
Variable key : string.

Lemma register_run (hotel : HotelCreate.t) (st : Store) :
  get_account_db (Auth.register hash hotel) st
  = match first (filter (fun h => String.eqb (Hotel.email h) (HotelCreate.email hotel))
                        (hotels st)) with
    | Some _ => (Raise (HTTPException 400 "Email already registered"), st)
    | None =>
        (Return "Hotel registered successfully",
         insert_account st
           (AHotel (Hotel.mk 0 (HotelCreate.name hotel) (HotelCreate.email hotel)
                             (hash (HotelCreate.password hotel)))))
    end.
Proof.
  unfold get_account_db, Auth.register, Eff.bind, Eff.get, Eff.lift, Eff.modify, Eff.ret.
  cbn. now destruct (first _).
Qed.

Lemma register_travel_agent_run (agent : TravelAgentCreate.t) (st : Store) :
  get_account_db (Auth.register_travel_agent hash agent) st
  = match first (filter (fun a => String.eqb (TravelAgent.email a)
                                             (TravelAgentCreate.email agent))
                        (travel_agents st)) with
    | Some _ => (Raise (HTTPException 400 "Email already registered"), st)
    | None =>
        (Return (Auth.mkAgentRegistered "Travel agent registered successfully"
                   (next_id TravelAgent.id (travel_agents st))
                   (TravelAgentCreate.name agent)),
         insert_account st
           (ATravelAgent
              (TravelAgent.mk 0 (TravelAgentCreate.name agent) (TravelAgentCreate.email agent)
                              (hash (TravelAgentCreate.password agent))
                              (TravelAgentCreate.company agent))))
    end.
Proof.
  unfold get_account_db, Auth.register_travel_agent, Eff.bind, Eff.get, Eff.lift,
    Eff.modify, Eff.ret.
  cbn. destruct (first _); [reflexivity |].
  cbn. now rewrite last_last.
Qed.

(** Registering with an email that an account of the same kind already
    has is refused with a 400, and the store stays as it was. *)
Theorem register_duplicate_email (hotel : HotelCreate.t) (agent : TravelAgentCreate.t)
    (st : Store) :
  ((exists h, In h (hotels st) /\ Hotel.email h = HotelCreate.email hotel) ->
   get_account_db (Auth.register hash hotel) st
   = (Raise (HTTPException 400 "Email already registered"), st))
  /\ ((exists a, In a (travel_agents st)
                 /\ TravelAgent.email a = TravelAgentCreate.email agent) ->
      get_account_db (Auth.register_travel_agent hash agent) st
      = (Raise (HTTPException 400 "Email already registered"), st)).
Proof.
  split; intros (x & Hin & Hemail).
  - rewrite register_run.
    destruct (first _) eqn:Hfirst; [reflexivity |].
    apply first_filter_none_inv in Hfirst.
    apply (filter_nil_forall _ _ x) in Hfirst; [| exact Hin].
    cbv beta in Hfirst. rewrite Hemail, String.eqb_refl in Hfirst. discriminate.
  - rewrite register_travel_agent_run.
    destruct (first _) eqn:Hfirst; [reflexivity |].
    apply first_filter_none_inv in Hfirst.
    apply (filter_nil_forall _ _ x) in Hfirst; [| exact Hin].
    cbv beta in Hfirst. rewrite Hemail, String.eqb_refl in Hfirst. discriminate.
Qed.

(** Registration keeps the hotel table free of repeated emails and of
    repeated ids, whether it accepts or refuses the request. *)
Theorem register_keeps_accounts_unique (hotel : HotelCreate.t) (st : Store) :
  NoDup (map Hotel.email (hotels st)) ->
  NoDup (map Hotel.id (hotels st)) ->
  NoDup (map Hotel.email (hotels (snd (get_account_db (Auth.register hash hotel) st))))
  /\ NoDup (map Hotel.id (hotels (snd (get_account_db (Auth.register hash hotel) st)))).
Proof.
  intros Hemails Hids. rewrite register_run.
  destruct (first _) eqn:Hfirst; [now split |].
  apply first_filter_none_inv in Hfirst. cbn. split.
  - apply NoDup_map_snoc; [exact Hemails |]. cbn.
    intros Hin. apply in_map_iff in Hin. destruct Hin as (h & Hh & Hin).
    apply (filter_nil_forall _ _ h) in Hfirst; [| exact Hin].
    cbv beta in Hfirst. rewrite Hh, String.eqb_refl in Hfirst. discriminate.
  - apply (NoDup_ids_snoc Hotel.id
             (fun i => Hotel.mk i (HotelCreate.name hotel) (HotelCreate.email hotel)
                                (hash (HotelCreate.password hotel))));
      [reflexivity | exact Hids].
Qed.

(** The same for the table of travel agents. *)
Theorem register_travel_agent_keeps_accounts_unique (agent : TravelAgentCreate.t)
    (st : Store) :
  NoDup (map TravelAgent.email (travel_agents st)) ->
  NoDup (map TravelAgent.id (travel_agents st)) ->
  NoDup (map TravelAgent.email
           (travel_agents (snd (get_account_db (Auth.register_travel_agent hash agent) st))))
  /\ NoDup (map TravelAgent.id
              (travel_agents (snd (get_account_db (Auth.register_travel_agent hash agent) st)))).
Proof.
  intros Hemails Hids. rewrite register_travel_agent_run.
  destruct (first _) eqn:Hfirst; [now split |].
  apply first_filter_none_inv in Hfirst. cbn. split.
  - apply NoDup_map_snoc; [exact Hemails |]. cbn.
    intros Hin. apply in_map_iff in Hin. destruct Hin as (a & Ha & Hin).
    apply (filter_nil_forall _ _ a) in Hfirst; [| exact Hin].
    cbv beta in Hfirst. rewrite Ha, String.eqb_refl in Hfirst. discriminate.
  - apply (NoDup_ids_snoc TravelAgent.id
             (fun i => TravelAgent.mk i (TravelAgentCreate.name agent)
                                      (TravelAgentCreate.email agent)
                                      (hash (TravelAgentCreate.password agent))
                                      (TravelAgentCreate.company agent)));
      [reflexivity | exact Hids].
Qed.

(** A hotel that registered can log in with the email and password it
    registered with, provided the hash of a password verifies against the
    password: the login answers with the name given at registration and
    the id the store gave the account. *)
Theorem register_then_login (hotel : HotelCreate.t) (st st' : Store) (msg : string)
    (now : Z) :
  get_account_db (Auth.register hash hotel) st = (Return msg, st') ->
  verify (HotelCreate.password hotel) (hash (HotelCreate.password hotel)) = true ->
  exists r,
    Auth.login verify key
      (HotelLogin.mk (HotelCreate.email hotel) (HotelCreate.password hotel)) st' now
    = Return r
    /\ Auth.subject_id r = next_id Hotel.id (hotels st)
    /\ Auth.subject_name r = HotelCreate.name hotel
    /\ Auth.token_type r = "bearer".
Proof.
  rewrite register_run.
  destruct (first _) eqn:Hfirst; [discriminate |].
  apply first_filter_none_inv in Hfirst.
  intros [= _ <-] Hverify.
  unfold Auth.login; cbn. rewrite filter_app, Hfirst. cbn.
  rewrite String.eqb_refl. cbn. rewrite Hverify. cbn.
  eexists. split; [reflexivity |]. cbn. auto.
Qed.

End Registration.

Lemma filter_none {A} (p : A -> bool) (l : list A) :
  (forall a, In a l -> p a = false) -> filter p l = [].
Proof.
  intros H. induction l as [| x l IH]; [reflexivity |]. cbn.
  rewrite (H x (or_introl eq_refl)). apply IH. intros a Ha. apply H. now right.
Qed.

Lemma no_row_has_next_id {A} (id : A -> Z) (rows : list A) :
  filter (fun r => id r =? next_id id rows) rows = [].
Proof.
  apply filter_none. intros r Hin. pose proof (next_id_fresh id rows r Hin).
  apply Z.eqb_neq. lia.
Qed.

(** The round trip of an agent account: after a registration that
    succeeded, the login with the same email and password succeeds, and
    its token, presented within 24 hours, is recognised as the agent whose
    id the registration returned (provided the hash of a password verifies
    against the password). *)
Theorem agent_registration_round_trip (verify : string -> string -> bool)
    (hash : string -> string) (key : string) (agent : TravelAgentCreate.t)
    (st st' : Store) (reg : Auth.AgentRegistered) (now now' : Z) :
  get_account_db (Auth.register_travel_agent hash agent) st = (Return reg, st') ->
  verify (TravelAgentCreate.password agent) (hash (TravelAgentCreate.password agent)) = true ->
  now' < now + 24 * 3600 ->
  exists r a,
    Auth.login_travel_agent verify key
      (TravelAgentLogin.mk (TravelAgentCreate.email agent) (TravelAgentCreate.password agent))
      st' now
    = Return r
    /\ Auth.get_current_travel_agent key (Auth.access_token r) st' now' = Return a
    /\ TravelAgent.id a = Auth.agent_id reg
    /\ TravelAgent.name a = TravelAgentCreate.name agent
    /\ TravelAgent.email a = TravelAgentCreate.email agent.
Proof.
  rewrite register_travel_agent_run.
  destruct (first _) eqn:Hfirst; [discriminate |].
  apply first_filter_none_inv in Hfirst.
  intros [= <- <-] Hverify Hfresh.
  unfold Auth.login_travel_agent; cbn -[next_id]. rewrite filter_app, Hfirst. cbn -[next_id].
  rewrite String.eqb_refl. cbn -[next_id]. rewrite Hverify. cbn -[next_id].
  do 2 eexists. split; [reflexivity |].
  unfold Auth.get_current_travel_agent; cbn -[next_id].
  rewrite String.eqb_refl. change (24 * 3600) with 86400 in Hfresh.
  destruct (Z.leb_spec (now + 86400) now'); [lia |]. cbn -[next_id].
  unfold Auth.agent_with_id. rewrite filter_app, (no_row_has_next_id TravelAgent.id).
  cbn -[next_id].
  rewrite Z.eqb_refl. cbn -[next_id]. auto.
Qed.

(** ** Bills of a hotel *)

(** What a successful upload leaves behind. *)
Lemma upload_bill_stored (bucket bill_type : string) (bill_month bill_year : Z)
    (bill_amount unit : string) (f : UploadFile) (hotel_id : Z) (hotel_name : string)
    (now : Clock) (w w' : World) (resp : BillUploadResponse.t) :
  upload_bill bucket bill_type bill_month bill_year bill_amount unit f
              hotel_id hotel_name now w
  = (Return resp, w') ->
  exists object_key amount,
    objects (s3 w') = (objects (s3 w) ++ [(object_key, file f)])%list
    /\ BillUploadResponse.file_url resp
       = "https://" ++ bucket ++ ".s3.amazonaws.com/" ++ object_key
    /\ store (db w')
       = fold_left insert
           (pending (db w)
              ++ [RUtilityBill
                    (UtilityBill.mk 0 hotel_id hotel_name bill_type bill_month bill_year
                                    bill_amount unit (BillUploadResponse.file_url resp))])
           (store (db w))
    /\ float bill_amount = Return amount
    /\ flt amount (of_int 0) = false
    /\ (bill_type = "electricity" \/ bill_type = "water").
Proof.
  unfold upload_bill, Eff.try_except, Eff.bind, Eff.lift, raise_if.
  destruct (str_in bill_type _) eqn:Htype; [| discriminate]. cbn [negb].
  destruct (negb (_ && _)); [discriminate |].
  destruct (_ || _); [discriminate |].
  destruct (float bill_amount) as [amount | e] eqn:Hamount; cbn [Py.try_except Py.bind].
  - destruct (flt amount (of_int 0)) eqn:Hneg; [discriminate |].
    cbn [Py.try_except].
    destruct (str_in (lower unit) _) eqn:Hunit; [| discriminate].
    cbn [negb]. unfold upload_fileobj.
    destruct (available (s3 w)); [| discriminate].
    cbv beta iota. unfold on_db, Eff.modify, Eff.get, Eff.ret. cbv beta iota.
    cbn [dispatch Py.try_except]. intros [= <- <-].
    cbn [s3 db objects store pending commit add BillUploadResponse.file_url].
    rewrite !fold_left_app. cbn [fold_left insert utility_bills]. rewrite !last_last.
    do 2 eexists.
    split; [reflexivity |]. split; [reflexivity |]. split; [reflexivity |].
    split; [first [reflexivity | eassumption] |].
    split; [first [reflexivity | eassumption] |].
    unfold str_in in Htype. cbn in Htype.
    destruct (String.eqb_spec bill_type "electricity"); [now left |].
    destruct (String.eqb_spec bill_type "water"); [now right | discriminate].
  - rewrite (float_raises_ValueError _ _ Hamount). discriminate.
Qed.

(** After a successful upload the hotel's list of bills is the list it
    had with one more bill at its end, carrying the submitted fields and
    the URL of the object just put in the bucket; the list of every other
    hotel is as it was. *)
Theorem upload_then_my_bills (bucket bill_type : string) (bill_month bill_year : Z)
    (bill_amount unit : string) (f : UploadFile) (hotel_id : Z) (hotel_name : string)
    (now : Clock) (w w' : World) (resp : BillUploadResponse.t) (other : Z) :
  pending (db w) = [] ->
  upload_bill bucket bill_type bill_month bill_year bill_amount unit f
              hotel_id hotel_name now w
  = (Return resp, w') ->
  (exists object_key,
     In (object_key, file f) (objects (s3 w'))
     /\ BillUploadResponse.file_url resp
        = "https://" ++ bucket ++ ".s3.amazonaws.com/" ++ object_key)
  /\ get_my_bills hotel_id (store (db w'))
     = (get_my_bills hotel_id (store (db w))
          ++ [UtilityBill.mk (next_id UtilityBill.id (utility_bills (store (db w))))
                             hotel_id hotel_name bill_type bill_month bill_year
                             bill_amount unit (BillUploadResponse.file_url resp)])%list
  /\ (other <> hotel_id ->
      get_my_bills other (store (db w')) = get_my_bills other (store (db w))).
Proof.
  intros Hfresh Hup.
  destruct (upload_bill_stored _ _ _ _ _ _ _ _ _ _ _ _ _ Hup)
    as (object_key & amount & Hobj & Hurl & Hstore & _).
  split; [| split].
  - exists object_key. split; [| exact Hurl].
    rewrite Hobj. apply in_or_app. right. now left.
  - unfold get_my_bills. rewrite Hstore, Hfresh.
    cbn [app fold_left insert utility_bills UtilityBill.with_id].
    rewrite filter_app. cbn [filter UtilityBill.hotel_id UtilityBill.with_id].
    now rewrite Z.eqb_refl.
  - intros Hother. unfold get_my_bills. rewrite Hstore, Hfresh.
    cbn [app fold_left insert utility_bills UtilityBill.with_id].
    rewrite filter_app. cbn [filter UtilityBill.hotel_id UtilityBill.with_id].
    destruct (Z.eqb_spec hotel_id other); [congruence |]. apply app_nil_r.
Qed.

(** After a successful upload the sum the footprint loop computes for the
    hotel (all years) is the sum it computed before plus the new amount
    times the factor of the bill's type. *)
Theorem upload_then_footprint (bucket bill_type : string) (bill_month bill_year : Z)
    (bill_amount unit : string) (f : UploadFile) (hotel_id : Z) (hotel_name : string)
    (now : Clock) (w w' : World) (resp : BillUploadResponse.t) :
  pending (db w) = [] ->
  upload_bill bucket bill_type bill_month bill_year bill_amount unit f
              hotel_id hotel_name now w
  = (Return resp, w') ->
  exists acc acc' amount,
    footprint_loop (footprint_bills None hotel_id (store (db w))) footprint_init = Return acc
    /\ footprint_loop (footprint_bills None hotel_id (store (db w'))) footprint_init
       = Return acc'
    /\ float bill_amount = Return amount
    /\ flt amount (of_int 0) = false
    /\ total_co2 acc'
       = fadd (total_co2 acc)
              (fmul amount (if String.eqb bill_type "electricity" then Fin 0.5 else Fin 0.001)).
Proof.
  intros Hfresh Hup.
  destruct (upload_bill_stored _ _ _ _ _ _ _ _ _ _ _ _ _ Hup)
    as (object_key & amount & _ & _ & Hstore & Hamount & Hneg & Htype).
  destruct (footprint_loop_total (footprint_bills None hotel_id (store (db w))) footprint_init)
    as (acc & Hacc & Htotal).
  destruct (footprint_loop_total (footprint_bills None hotel_id (store (db w'))) footprint_init)
    as (acc' & Hacc' & Htotal').
  exists acc, acc', amount. repeat split; try assumption.
  rewrite Htotal', Htotal. unfold footprint_bills. rewrite Hstore, Hfresh.
  cbn [app fold_left insert utility_bills UtilityBill.with_id].
  rewrite filter_app. cbn [filter UtilityBill.hotel_id UtilityBill.with_id]. rewrite Z.eqb_refl.
  rewrite fold_left_app. cbn [fold_left].
  unfold add_bill_emission at 1.
  cbn [UtilityBill.bill_amount UtilityBill.bill_type UtilityBill.with_id].
  rewrite Hamount.
  destruct Htype as [-> | ->]; reflexivity.
Qed.

(** Bills whose amount does not parse are skipped: the footprint is the
    one of the store without them. *)
Theorem footprint_skips_unparsable (year : option Z) (hotel_id : Z) (hotel_name : string)
    (st : Store) :
  calculate_carbon_footprint year hotel_id hotel_name st
  = calculate_carbon_footprint year hotel_id hotel_name (parsable_bills_only st).
Proof.
  assert (Hloop : forall bills acc,
             footprint_loop bills acc = footprint_loop (filter amount_parses bills) acc).
  { induction bills as [| bill rest IH]; intros acc; [reflexivity |].
    cbn [filter]. unfold amount_parses at 1.
    destruct (float (UtilityBill.bill_amount bill)) as [amount | e] eqn:Hamount.
    - cbn [footprint_loop].
      destruct (footprint_step acc bill); [cbn [Py.bind]; apply IH | reflexivity].
    - cbn [footprint_loop]. unfold footprint_step. rewrite Hamount.
      rewrite (float_raises_ValueError _ _ Hamount).
      change (footprint_loop rest acc = footprint_loop (filter amount_parses rest) acc).
      apply IH. }
  assert (Hcomm : forall (p q : UtilityBill.t -> bool) l,
             filter p (filter q l) = filter q (filter p l)).
  { intros p q l. induction l as [| x l IH]; [reflexivity |]. cbn [filter].
    destruct (q x) eqn:Hq, (p x) eqn:Hp; cbn [filter]; rewrite ?Hq, ?Hp, IH; reflexivity. }
  unfold calculate_carbon_footprint.
  rewrite (Hloop (footprint_bills year hotel_id st)).
  replace (filter amount_parses (footprint_bills year hotel_id st))
    with (footprint_bills year hotel_id (parsable_bills_only st)); [reflexivity |].
  unfold footprint_bills, parsable_bills_only. cbn [utility_bills].
  destruct year as [y |]; [destruct (y =? 0) |]; try apply Hcomm.
  rewrite (Hcomm amount_parses). f_equal. apply Hcomm.
Qed.

(** ** Trips *)

Lemma filter_nil_existsb {A} (p : A -> bool) (l : list A) :
  existsb p l = match filter p l with [] => false | _ => true end.
Proof.
  induction l as [| x l IH]; [reflexivity |]. cbn [existsb filter].
  destruct (p x); [reflexivity | exact IH].
Qed.

(** The two outcomes of the stay emission: the default without bills, the
    [AttributeError] with a bill on record. *)
Lemma stay_carbon_cases (hotel_id nights guests : Z) (st : Store) :
  calculate_hotel_stay_carbon hotel_id nights guests st
  = if hotel_has_bills st hotel_id
    then Raise (AttributeError "consumption_amount")
    else Return (default_stay_carbon nights guests).
Proof.
  unfold hotel_has_bills. rewrite filter_nil_existsb.
  destruct (filter _ _) as [| b rest] eqn:Hbills.
  - now apply hotel_stay_carbon_default.
  - apply hotel_stay_carbon_raises. rewrite Hbills. discriminate.
Qed.

Lemma flights_loop (trip : TripCreate.t) (db_trip : Trip.t)
    (xs : list FlightSegmentCreate.t) (t : pyfloat) (ds : list FlightDetail) (s : Session) :
  fst (Eff.for_each xs (flight_step trip db_trip) (t, ds) s)
  = Return (fold_left fadd
              (map fd_carbon_kg (map (flight_detail (TripCreate.number_of_tourists trip)) xs)) t,
            (ds ++ map (flight_detail (TripCreate.number_of_tourists trip)) xs)%list).
Proof.
  revert t ds s. induction xs as [| x xs IH]; intros t ds s.
  - cbn [Eff.for_each map fold_left]. now rewrite app_nil_r.
  - cbn [Eff.for_each map fold_left]. unfold Eff.bind.
    change (flight_step trip db_trip x (t, ds) s)
      with (Return (fadd t (fd_carbon_kg (flight_detail (TripCreate.number_of_tourists trip) x)),
                    (ds ++ [flight_detail (TripCreate.number_of_tourists trip) x])%list),
            add (RFlightSegment (flight_row (Trip.id db_trip) x)) s).
    cbv beta iota. rewrite IH. now rewrite <- app_assoc.
Qed.

Lemma transports_loop (trip : TripCreate.t) (db_trip : Trip.t)
    (xs : list LocalTransportCreate.t) (t : pyfloat) (ds : list TransportDetail)
    (s : Session) :
  fst (Eff.for_each xs (transport_step trip db_trip) (t, ds) s)
  = Return (fold_left fadd
              (map td_carbon_kg (map (transport_detail (TripCreate.number_of_tourists trip)) xs))
              t,
            (ds ++ map (transport_detail (TripCreate.number_of_tourists trip)) xs)%list).
Proof.
  revert t ds s. induction xs as [| x xs IH]; intros t ds s.
  - cbn [Eff.for_each map fold_left]. now rewrite app_nil_r.
  - cbn [Eff.for_each map fold_left]. unfold Eff.bind.
    change (transport_step trip db_trip x (t, ds) s)
      with (Return (fadd t (td_carbon_kg
                              (transport_detail (TripCreate.number_of_tourists trip) x)),
                    (ds ++ [transport_detail (TripCreate.number_of_tourists trip) x])%list),
            add (RLocalTransport (transport_row (Trip.id db_trip) x)) s).
    cbv beta iota. rewrite IH. now rewrite <- app_assoc.
Qed.

Lemma stays_loop (trip : TripCreate.t) (db_trip : Trip.t)
    (xs : list HotelStayCreate.t) (t : pyfloat) (ds : list HotelDetail) (s : Session) :
  fst (Eff.for_each xs (stay_step trip db_trip) (t, ds) s)
  = if stays_without_bills (store s) xs then
      Return (fold_left fadd
                (map hd_carbon_kg
                     (map (stay_detail (store s) (TripCreate.number_of_tourists trip)) xs)) t,
              (ds ++ map (stay_detail (store s) (TripCreate.number_of_tourists trip)) xs)%list)
    else Raise (AttributeError "consumption_amount").
Proof.
  revert t ds s. induction xs as [| x xs IH]; intros t ds s.
  - cbn [Eff.for_each map fold_left stays_without_bills forallb]. now rewrite app_nil_r.
  - cbn [Eff.for_each map fold_left]. unfold Eff.bind, stays_without_bills.
    cbn [forallb]. fold (stays_without_bills (store s) xs).
    unfold stay_step at 1. unfold Eff.bind, Eff.modify, Eff.get, Eff.lift, Eff.ret.
    cbv beta iota. cbn [store add]. rewrite stay_carbon_cases.
    destruct (hotel_has_bills (store s) (HotelStayCreate.hotel_id x)).
    + reflexivity.
    + cbn [negb andb]. rewrite IH. cbn [store add].
      destruct (stays_without_bills (store s) xs); [| reflexivity].
      now rewrite <- app_assoc.
Qed.

(** The detail lists of an answer of [create_trip] have one entry per
    flight segment and per local transport, in the order of the request,
    each with its own emission; and the flight and transport subtotals are
    the rounded sums of the emissions listed. *)
Theorem create_trip_details (trip : TripCreate.t) (agent : TravelAgent.t)
    (s s' : Session) (r : TripCarbonResponse.t) :
  create_trip trip agent s = (Return r, s') ->
  TripCarbonResponse.flight_details r
  = map (flight_detail (TripCreate.number_of_tourists trip)) (TripCreate.flight_segments trip)
  /\ TripCarbonResponse.transport_details r
     = map (transport_detail (TripCreate.number_of_tourists trip))
           (TripCreate.local_transports trip)
  /\ TripCarbonResponse.flights_carbon_kg r
     = round3 (fold_left fadd (map fd_carbon_kg (TripCarbonResponse.flight_details r)) (Fin 0))
  /\ TripCarbonResponse.transport_carbon_kg r
     = round3 (fold_left fadd (map td_carbon_kg (TripCarbonResponse.transport_details r))
                         (Fin 0))
  /\ TripCarbonResponse.number_of_tourists r = TripCreate.number_of_tourists trip.
Proof.
  unfold create_trip, Eff.bind, Eff.modify, Eff.get, Eff.lift, Eff.ret. cbv beta iota.
  match goal with
  | |- context [Eff.for_each ?xs (flight_step ?t ?d) ?acc ?st] =>
      pose proof (flights_loop t d xs (Fin 0) [] st) as Hf;
      destruct (Eff.for_each xs (flight_step t d) acc st) as [[[tf df] | e] s1];
      [| discriminate]
  end.
  match goal with
  | |- context [Eff.for_each ?xs (transport_step ?t ?d) ?acc ?st] =>
      pose proof (transports_loop t d xs (Fin 0) [] st) as Ht;
      destruct (Eff.for_each xs (transport_step t d) acc st) as [[[tt dt] | e] s2];
      [| discriminate]
  end.
  destruct (Eff.for_each _ (stay_step _ _) _ _) as [[[th dh] | e] s3]; [| discriminate].
  destruct (carbon_per_tourist_of _ _) as [q | e]; [| discriminate].
  cbn [fst app] in Hf, Ht. injection Hf as -> ->. injection Ht as -> ->.
  intros [= <- _]. cbn [TripCarbonResponse.flight_details TripCarbonResponse.transport_details
    TripCarbonResponse.flights_carbon_kg TripCarbonResponse.transport_carbon_kg
    TripCarbonResponse.number_of_tourists].
  repeat split; reflexivity.
Qed.

(** [create_trip] answers exactly when no stay of the trip is at a hotel
    with a bill on record: then the hotel entries carry the flat default
    of 30 kg per room-night, and the trip gets the next id of the table;
    otherwise the request fails with the [AttributeError] of the stay
    emission. *)
Theorem create_trip_outcome (trip : TripCreate.t) (agent : TravelAgent.t) (st : Store) :
  if stays_without_bills st (TripCreate.hotel_stays trip) then
    exists r,
      fst (get_db (create_trip trip agent) st) = Return r
      /\ TripCarbonResponse.trip_id r = next_id Trip.id (trips st)
      /\ TripCarbonResponse.hotel_details r
         = map (stay_detail st (TripCreate.number_of_tourists trip)) (TripCreate.hotel_stays trip)
      /\ TripCarbonResponse.hotels_carbon_kg r
         = round3 (fold_left fadd (map hd_carbon_kg (TripCarbonResponse.hotel_details r))
                             (Fin 0))
  else
    fst (get_db (create_trip trip agent) st) = Raise (AttributeError "consumption_amount").
Proof.
  unfold get_db, create_trip, SessionLocal.
  unfold Eff.bind, Eff.modify, Eff.get, Eff.lift, Eff.ret. cbv beta iota.
  change (commit (add (RTrip (trip_row trip agent)) (mkSession st [])))
    with (mkSession (insert st (RTrip (trip_row trip agent))) []).
  cbn [store].
  set (st1 := insert st (RTrip (trip_row trip agent))).
  set (db_trip := List.last (trips st1) (trip_row trip agent)).
  assert (Hid : Trip.id db_trip = next_id Trip.id (trips st)).
  { unfold db_trip, st1. cbn [insert trips]. now rewrite last_last. }
  destruct (for_each_stages _ _ (flight_step_stages trip db_trip)
              (TripCreate.flight_segments trip) (Fin 0, []) (mkSession st1 []))
    as [[tf df] ->].
  cbn [store pending app].
  match goal with
  | |- context [Eff.for_each _ (transport_step _ _) ?acc ?s] =>
      destruct (for_each_stages _ _ (transport_step_stages trip db_trip)
                  (TripCreate.local_transports trip) acc s) as [[tt dt] ->]
  end.
  cbn [store pending].
  match goal with
  | |- context [Eff.for_each ?xs (stay_step ?t ?d) ?acc ?s] =>
      pose proof (stays_loop t d xs (Fin 0) [] s) as Hh;
      destruct (Eff.for_each xs (stay_step t d) acc s) as [[[th dh] | e] s3]
  end; cbn [fst store app] in Hh;
    change (stays_without_bills st1 (TripCreate.hotel_stays trip))
      with (stays_without_bills st (TripCreate.hotel_stays trip)) in Hh;
    destruct (stays_without_bills st (TripCreate.hotel_stays trip)); try discriminate.
  - injection Hh as -> ->.
    destruct (carbon_per_tourist_of_returns
                (fadd (fadd tf tt)
                   (fold_left fadd
                      (map hd_carbon_kg
                         (map (stay_detail st1 (TripCreate.number_of_tourists trip))
                              (TripCreate.hotel_stays trip))) (Fin 0)))
                (TripCreate.number_of_tourists trip)) as [q ->].
    eexists. split; [reflexivity |].
    cbn [TripCarbonResponse.trip_id TripCarbonResponse.hotel_details
           TripCarbonResponse.hotels_carbon_kg].
    split; [exact Hid |]. split; reflexivity.
  - cbn [fst]. now injection Hh as ->.
Qed.

(** A trip that another agent owns is reported as not found, exactly as a
    trip that does not exist. *)
Theorem trip_details_not_owned (trip_id : Z) (agent : TravelAgent.t) (st : Store) :
  (forall t, In t (trips st) -> Trip.id t = trip_id ->
             Trip.travel_agent_id t <> TravelAgent.id agent) ->
  get_trip_carbon_details trip_id agent st = Raise (HTTPException 404 "Trip not found").
Proof.
  intros Hforeign. unfold get_trip_carbon_details.
  rewrite first_filter_none; [reflexivity |].
  intros t Hin. destruct (Z.eqb_spec (Trip.id t) trip_id) as [Hid |]; [| reflexivity].
  cbn [andb]. apply Z.eqb_neq. now apply Hforeign.
Qed.


(** Only the stay emission can make the total of a trip fail. *)
Lemma stay_fold_outcome (st : Store) (n : Z) (stays : list HotelStay.t)
    (acc : result pyfloat) :
  fails_on_stay_only acc ->
  fails_on_stay_only
    (fold_left
       (fun total stay =>
          (total <- total ;;
           c <- calculate_hotel_stay_carbon (HotelStay.hotel_id stay)
                                            (HotelStay.number_of_nights stay) n st ;;
           Return (fadd total c))%py)
       stays acc).
Proof.
  revert acc. induction stays as [| stay rest IH]; intros acc Hok; [exact Hok |].
  cbn [fold_left]. apply IH. destruct acc as [total | e]; [| exact Hok].
  cbn [Py.bind]. rewrite stay_carbon_cases.
  now destruct (hotel_has_bills st (HotelStay.hotel_id stay)).
Qed.

Lemma trip_total_outcome (trip_id : Z) (st : Store) :
  fails_on_stay_only (calculate_trip_total_carbon trip_id st).
Proof.
  unfold calculate_trip_total_carbon.
  destruct (first _) as [trip |]; [| exact I].
  apply stay_fold_outcome. exact I.
Qed.

Lemma trip_summaries_outcome (ts : list Trip.t) (st : Store) :
  match trip_summaries ts st with
  | Return summaries =>
      map ts_trip_id summaries = map Trip.id ts
      /\ map ts_number_of_tourists summaries = map Trip.number_of_tourists ts
  | Raise e => e = AttributeError "consumption_amount"
  end.
Proof.
  induction ts as [| trip rest IH]; [now split |].
  cbn [trip_summaries].
  pose proof (trip_total_outcome (Trip.id trip) st) as Htotal.
  destruct (calculate_trip_total_carbon (Trip.id trip) st) as [total | e];
    [| exact Htotal].
  cbn [Py.bind].
  destruct (carbon_per_tourist_of_returns total (Trip.number_of_tourists trip)) as [q ->].
  cbn [Py.bind].
  destruct (trip_summaries rest st) as [more | e]; [| exact IH].
  cbn [Py.bind map ts_trip_id ts_number_of_tourists].
  destruct IH as [-> ->]. now split.
Qed.

(** The listing of an agent's trips, when it answers, has one entry per
    trip the agent owns, in the order of the store, under the agent's
    name; it fails only when the stay emission of one of those trips
    fails, never on a trip without tourists. *)
Theorem my_trips_outcome (agent : TravelAgent.t) (st : Store) :
  match get_my_trips agent st with
  | Return (name, total_trips, summaries) =>
      name = TravelAgent.name agent
      /\ total_trips = Z.of_nat (List.length summaries)
      /\ map ts_trip_id summaries
         = map Trip.id
               (filter (fun t => Trip.travel_agent_id t =? TravelAgent.id agent) (trips st))
      /\ map ts_number_of_tourists summaries
         = map Trip.number_of_tourists
               (filter (fun t => Trip.travel_agent_id t =? TravelAgent.id agent) (trips st))
  | Raise e => e = AttributeError "consumption_amount"
  end.
Proof.
  unfold get_my_trips.
  pose proof (trip_summaries_outcome
                (filter (fun t => Trip.travel_agent_id t =? TravelAgent.id agent) (trips st))
                st) as Hs.
  destruct (trip_summaries _ st) as [summaries | e]; [| exact Hs].
  cbn [Py.bind]. destruct Hs as [Hids Hn]. auto.
Qed.

(** ** A trip after its creation *)

Lemma child_rows_are_children (trip : TripCreate.t) (trip_id : Z) :
  Forall is_child_row (child_rows trip trip_id).
Proof.
  unfold child_rows. repeat (apply Forall_app; split);
    apply Forall_forall; intros r Hin; apply in_map_iff in Hin;
    destruct Hin as (x & <- & _); exact I.
Qed.

(** Committing child rows leaves the trips, the bills and the hotels as
    they were, and every stay row of the store afterwards is a row it had
    or the numbered copy of a staged one. *)
Lemma commit_children (rows : list Row) (st : Store) :
  Forall is_child_row rows ->
  trips (fold_left insert rows st) = trips st
  /\ utility_bills (fold_left insert rows st) = utility_bills st
  /\ (forall s, In s (hotel_stays (fold_left insert rows st)) ->
                 In s (hotel_stays st)
                 \/ exists x, In (RHotelStay x) rows
                              /\ HotelStay.trip_id s = HotelStay.trip_id x
                              /\ HotelStay.hotel_id s = HotelStay.hotel_id x).
Proof.
  intros Hrows. revert st. induction Hrows as [| r rows Hr _ IH]; intros st.
  - cbn [fold_left]. auto.
  - cbn [fold_left]. destruct (IH (insert st r)) as (Htrips & Hbills & Hstays).
    rewrite Htrips, Hbills.
    destruct r as [x | x | x | x | x]; try contradiction; cbn [insert trips utility_bills];
      (split; [reflexivity |]); (split; [reflexivity |]);
      intros s Hin; destruct (Hstays s Hin) as [Hold | (y & Hy & Ht & Hh)];
      try (left; exact Hold); try (right; exists y; split; [now right | now split]).
    cbn [insert hotel_stays] in Hold. apply in_app_or in Hold.
    destruct Hold as [Hold | [<- | []]]; [now left |].
    right. exists x. split; [now left | now split].
Qed.

(** What a successful [create_trip] leaves in the store, and what made it
    succeed. *)
Lemma create_trip_run (trip : TripCreate.t) (agent : TravelAgent.t) (st st' : Store)
    (r : TripCarbonResponse.t) :
  get_db (create_trip trip agent) st = (Return r, st') ->
  TripCarbonResponse.trip_id r = next_id Trip.id (trips st)
  /\ st' = fold_left insert (child_rows trip (next_id Trip.id (trips st)))
                     (insert st (RTrip (trip_row trip agent)))
  /\ stays_without_bills st (TripCreate.hotel_stays trip) = true.
Proof.
  unfold get_db, create_trip, SessionLocal.
  unfold Eff.bind, Eff.modify, Eff.get, Eff.lift, Eff.ret. cbv beta iota.
  change (commit (add (RTrip (trip_row trip agent)) (mkSession st [])))
    with (mkSession (insert st (RTrip (trip_row trip agent))) []).
  cbn [store].
  set (st1 := insert st (RTrip (trip_row trip agent))).
  set (db_trip := List.last (trips st1) (trip_row trip agent)).
  assert (Hid : Trip.id db_trip = next_id Trip.id (trips st)).
  { unfold db_trip, st1. cbn [insert trips]. now rewrite last_last. }
  destruct (for_each_stages _ _ (flight_step_stages trip db_trip)
              (TripCreate.flight_segments trip) (Fin 0, []) (mkSession st1 []))
    as [[tf df] ->].
  cbn [store pending app].
  match goal with
  | |- context [Eff.for_each _ (transport_step _ _) ?acc ?s] =>
      destruct (for_each_stages _ _ (transport_step_stages trip db_trip)
                  (TripCreate.local_transports trip) acc s) as [[tt dt] ->]
  end.
  cbn [store pending].
  match goal with
  | |- context [Eff.for_each ?xs (stay_step ?t ?d) ?acc ?s] =>
      pose proof (stays_loop t d xs (Fin 0) [] s) as Hh;
      destruct (for_each_stages_or_raises _ _ (stay_step_stages trip db_trip) xs acc s)
        as [[[th dh] Hrun] | (e & s' & Hrun & Hs')];
      rewrite Hrun in Hh |- *
  end.
  - destruct (carbon_per_tourist_of_returns (fadd (fadd tf tt) th)
                (TripCreate.number_of_tourists trip)) as [q ->].
    cbn [fst store] in Hh.
    change (stays_without_bills st1 (TripCreate.hotel_stays trip))
      with (stays_without_bills st (TripCreate.hotel_stays trip)) in Hh.
    destruct (stays_without_bills st (TripCreate.hotel_stays trip)); [| discriminate].
    cbn [close store commit pending].
    intros [= <- <-]. cbn [TripCarbonResponse.trip_id].
    split; [exact Hid |]. split; [| reflexivity].
    unfold child_rows. rewrite <- Hid. now rewrite <- app_assoc.
  - discriminate.
Qed.

Lemma stay_fold_returns (st : Store) (n : Z) (stays : list HotelStay.t) (t0 : pyfloat) :
  (forall s, In s stays -> hotel_has_bills st (HotelStay.hotel_id s) = false) ->
  exists t,
    fold_left
      (fun total stay =>
         (total <- total ;;
          c <- calculate_hotel_stay_carbon (HotelStay.hotel_id stay)
                                           (HotelStay.number_of_nights stay) n st ;;
          Return (fadd total c))%py)
      stays (Return t0)
    = Return t.
Proof.
  revert t0. induction stays as [| stay rest IH]; intros t0 Hok; [now exists t0 |].
  cbn [fold_left Py.bind]. rewrite stay_carbon_cases, (Hok stay (or_introl eq_refl)).
  cbn [Py.bind]. apply IH. intros s Hs. apply Hok. now right.
Qed.

(** A trip that was just created is reported as not found to every other
    agent. *)
Theorem created_trip_hidden_from_others (trip : TripCreate.t) (agent other : TravelAgent.t)
    (st st' : Store) (r : TripCarbonResponse.t) :
  get_db (create_trip trip agent) st = (Return r, st') ->
  TravelAgent.id other <> TravelAgent.id agent ->
  get_trip_carbon_details (TripCarbonResponse.trip_id r) other st'
  = Raise (HTTPException 404 "Trip not found").
Proof.
  intros Hrun Hother. destruct (create_trip_run _ _ _ _ _ Hrun) as (-> & -> & _).
  unfold get_trip_carbon_details.
  destruct (commit_children _ (insert st (RTrip (trip_row trip agent)))
              (child_rows_are_children trip (next_id Trip.id (trips st))))
    as (-> & _ & _).
  cbn [insert trips]. rewrite first_filter_none; [reflexivity |].
  intros t Hin. apply in_app_or in Hin. destruct Hin as [Hold | [<- | []]].
  - pose proof (next_id_fresh Trip.id (trips st) t Hold).
    destruct (Z.eqb_spec (Trip.id t) (next_id Trip.id (trips st))); [lia | reflexivity].
  - cbn [Trip.with_id Trip.id Trip.travel_agent_id trip_row].
    rewrite Z.eqb_refl. cbn [andb]. apply Z.eqb_neq. congruence.
Qed.

(** A trip that was just created can be read back by its owner: the
    detail read answers, under the id, the name and the tourist count of
    the creation (provided the tourist count is not 0 and no stay row of
    the store was already filed under the id the trip received). *)
Theorem created_trip_read_back (trip : TripCreate.t) (agent : TravelAgent.t)
    (st st' : Store) (r : TripCarbonResponse.t) :
  get_db (create_trip trip agent) st = (Return r, st') ->
  TripCreate.number_of_tourists trip <> 0 ->
  (forall s, In s (hotel_stays st) -> HotelStay.trip_id s <> next_id Trip.id (trips st)) ->
  exists d,
    get_trip_carbon_details (TripCarbonResponse.trip_id r) agent st' = Return d
    /\ tc_trip_id d = TripCarbonResponse.trip_id r
    /\ tc_trip_name d = TripCreate.trip_name trip
    /\ tc_number_of_tourists d = TripCreate.number_of_tourists trip.
Proof.
  intros Hrun Hn Hintegrity.
  destruct (create_trip_run _ _ _ _ _ Hrun) as (-> & -> & Hstays).
  set (tid := next_id Trip.id (trips st)).
  set (st1 := insert st (RTrip (trip_row trip agent))).
  destruct (commit_children _ st1 (child_rows_are_children trip tid))
    as (Htrips & Hbills & Hrows).
  set (st2 := fold_left insert (child_rows trip tid) st1) in *.
  set (new_trip := Trip.with_id tid (trip_row trip agent)).
  assert (Hold : forall (extra : Trip.t -> bool),
             filter (fun t => (Trip.id t =? tid) && extra t) (trips st) = []).
  { intros extra. apply filter_none. intros t Hin.
    pose proof (next_id_fresh Trip.id (trips st) t Hin).
    destruct (Z.eqb_spec (Trip.id t) tid); [unfold tid in *; lia | reflexivity]. }
  assert (Hfound : first (filter (fun t => (Trip.id t =? tid)
                                           && (Trip.travel_agent_id t =? TravelAgent.id agent))
                                 (trips st2)) = Some new_trip).
  { rewrite Htrips. unfold st1. cbn [insert trips]. fold tid. fold new_trip.
    rewrite filter_app, Hold. cbn [app filter new_trip Trip.with_id Trip.id
      Trip.travel_agent_id trip_row]. now rewrite !Z.eqb_refl. }
  assert (Hfound' : first (filter (fun t => Trip.id t =? tid) (trips st2)) = Some new_trip).
  { rewrite Htrips. unfold st1. cbn [insert trips]. fold tid. fold new_trip.
    rewrite filter_app.
    replace (filter (fun t => Trip.id t =? tid) (trips st)) with (@nil Trip.t).
    - cbn [app filter new_trip Trip.with_id Trip.id]. now rewrite Z.eqb_refl.
    - symmetry. apply filter_none. intros t Hin.
      pose proof (next_id_fresh Trip.id (trips st) t Hin).
      apply Z.eqb_neq. unfold tid. lia. }
  assert (Htotal : exists total, calculate_trip_total_carbon tid st2 = Return total).
  { unfold calculate_trip_total_carbon. rewrite Hfound'.
    apply stay_fold_returns. intros s Hin. apply filter_In in Hin.
    destruct Hin as [Hin Htid]. apply Z.eqb_eq in Htid.
    unfold hotel_has_bills. rewrite Hbills.
    change (utility_bills st1) with (utility_bills st).
    fold (hotel_has_bills st (HotelStay.hotel_id s)).
    destruct (Hrows s Hin) as [Hold' | (x & Hx & _ & Hh)].
    - exfalso. apply (Hintegrity s Hold'). exact Htid.
    - rewrite Hh. unfold child_rows in Hx.
      apply in_app_or in Hx. destruct Hx as [Hx | Hx];
        [apply in_map_iff in Hx; destruct Hx as (? & ? & _); discriminate |].
      apply in_app_or in Hx. destruct Hx as [Hx | Hx];
        [apply in_map_iff in Hx; destruct Hx as (? & ? & _); discriminate |].
      apply in_map_iff in Hx. destruct Hx as (hd & [= <-] & Hhd).
      cbn [stay_row HotelStay.hotel_id].
      unfold stays_without_bills in Hstays. rewrite forallb_forall in Hstays.
      specialize (Hstays hd Hhd). now destruct (hotel_has_bills st _). }
  destruct Htotal as [total Htotal].
  unfold get_trip_carbon_details. rewrite Hfound, Htotal. cbn [Py.bind].
  assert (Hn' : Trip.number_of_tourists new_trip <> 0) by exact Hn.
  destruct (fdiv_of_int_returns total _ Hn') as [q ->]. cbn [Py.bind].
  eexists. split; [reflexivity |]. repeat split.
Qed.

(** ** The properties above at sample inputs *)

Lemma hotel_token_round_trip_witness :
  exists r,
    Auth.login Sample.verify Sample.secret
      (HotelLogin.mk "admin@grandresort.com" "securepassword123") Sample.accounts 0
    = Return r
    /\ 3600 < 0 + 24 * 3600
    /\ Auth.get_current_hotel Sample.secret (Auth.access_token r) 3600
       = Return (Auth.mkCurrentHotel (VInt 1) (VStr "Grand Resort Hotel")).
Proof.
  eexists. split; [vm_compute; reflexivity |]. split; [lia |].
  apply (hotel_token_round_trip Sample.verify Sample.secret
           (HotelLogin.mk "admin@grandresort.com" "securepassword123") Sample.accounts 0 3600);
    [vm_compute; reflexivity | lia].
Defined.


Lemma expired_token_rejected_witness :
  0 + 24 * 3600 <= 86400
  /\ Auth.get_current_hotel Sample.secret
       (Auth.create_access_token Sample.secret [("hotel_id", VInt 1)] 0) 86400
     = Raise (HTTPException 401 "Token has expired")
  /\ Auth.get_current_travel_agent Sample.secret
       (Auth.create_access_token Sample.secret [("hotel_id", VInt 1)] 0)
       Sample.accounts 86400
     = Raise (HTTPException 401 "Token has expired").
Proof.
  split; [lia |].
  apply (expired_token_rejected Sample.secret [("hotel_id", VInt 1)] Sample.accounts 0 86400).
  lia.
Defined.

Lemma agent_token_round_trip_witness :
  exists r,
    Auth.login_travel_agent Sample.verify Sample.secret
      (TravelAgentLogin.mk "tom@tours.com" "tomspassword") Sample.with_foreign_trip 0
    = Return r
    /\ NoDup (map TravelAgent.id (travel_agents Sample.with_foreign_trip))
    /\ 3600 < 0 + 24 * 3600
    /\ exists a,
         Auth.get_current_travel_agent Sample.secret (Auth.access_token r)
           Sample.with_foreign_trip 3600
         = Return a
         /\ TravelAgent.id a = Auth.subject_id r
         /\ TravelAgent.email a = "tom@tours.com"
         /\ Sample.verify "tomspassword" (TravelAgent.password a) = true.
Proof.
  assert (Hnd : NoDup (map TravelAgent.id (travel_agents Sample.with_foreign_trip))).
  { cbn. repeat constructor; cbn; intuition discriminate. }
  eexists. split; [vm_compute; reflexivity |]. split; [exact Hnd |]. split; [lia |].
  apply (agent_token_round_trip Sample.verify Sample.secret
           (TravelAgentLogin.mk "tom@tours.com" "tomspassword")
           Sample.with_foreign_trip 0 3600);
    [vm_compute; reflexivity | exact Hnd | lia].
Defined.

Lemma agent_token_at_hotel_verifier_witness :
  exists r,
    Auth.login_travel_agent Sample.verify Sample.secret
      (TravelAgentLogin.mk "sarah@travelagency.com" "securepass123") Sample.accounts 0
    = Return r
    /\ Auth.get_current_hotel Sample.secret (Auth.access_token r) 3600
       = Raise (HTTPException 401 "Invalid token: missing hotel information").
Proof.
  eexists. split; [vm_compute; reflexivity |].
  apply (agent_token_at_hotel_verifier Sample.verify Sample.secret
           (TravelAgentLogin.mk "sarah@travelagency.com" "securepass123")
           Sample.accounts 0 3600).
  vm_compute; reflexivity.
Defined.

Lemma register_duplicate_email_witness :
  ((exists h, In h (hotels Sample.accounts)
              /\ Hotel.email h = "admin@grandresort.com")
   /\ get_account_db
        (Auth.register Sample.hash
           (HotelCreate.mk "Grand Resort Annex" "admin@grandresort.com" "anotherpassword"))
        Sample.accounts
      = (Raise (HTTPException 400 "Email already registered"), Sample.accounts))
  /\ ((exists a, In a (travel_agents Sample.accounts)
                 /\ TravelAgent.email a = "sarah@travelagency.com")
      /\ get_account_db
           (Auth.register_travel_agent Sample.hash
              (TravelAgentCreate.mk "Sarah Again" "sarah@travelagency.com" "yetanotherpass"
                                    None))
           Sample.accounts
         = (Raise (HTTPException 400 "Email already registered"), Sample.accounts)).
Proof.
  assert (Hh : exists h, In h (hotels Sample.accounts)
                         /\ Hotel.email h = "admin@grandresort.com").
  { exists Sample.grand. split; [now left | reflexivity]. }
  assert (Ha : exists a, In a (travel_agents Sample.accounts)
                         /\ TravelAgent.email a = "sarah@travelagency.com").
  { exists Sample.sarah. split; [now left | reflexivity]. }
  split; (split; [assumption |]).
  - exact (proj1 (register_duplicate_email Sample.hash
                    (HotelCreate.mk "Grand Resort Annex" "admin@grandresort.com"
                                    "anotherpassword")
                    Sample.new_agent Sample.accounts) Hh).
  - exact (proj2 (register_duplicate_email Sample.hash Sample.new_hotel
                    (TravelAgentCreate.mk "Sarah Again" "sarah@travelagency.com"
                                          "yetanotherpass" None)
                    Sample.accounts) Ha).
Defined.

Lemma register_keeps_accounts_unique_witness :
  NoDup (map Hotel.email (hotels Sample.accounts))
  /\ NoDup (map Hotel.id (hotels Sample.accounts))
  /\ NoDup (map Hotel.email
              (hotels (snd (get_account_db (Auth.register Sample.hash Sample.new_hotel)
                                           Sample.accounts))))
  /\ NoDup (map Hotel.id
              (hotels (snd (get_account_db (Auth.register Sample.hash Sample.new_hotel)
                                           Sample.accounts)))).
Proof.
  assert (He : NoDup (map Hotel.email (hotels Sample.accounts)))
    by (cbn; repeat constructor; cbn; tauto).
  assert (Hi : NoDup (map Hotel.id (hotels Sample.accounts)))
    by (cbn; repeat constructor; cbn; tauto).
  split; [exact He |]. split; [exact Hi |].
  exact (register_keeps_accounts_unique Sample.hash Sample.new_hotel Sample.accounts He Hi).
Defined.

Lemma register_travel_agent_keeps_accounts_unique_witness :
  NoDup (map TravelAgent.email (travel_agents Sample.accounts))
  /\ NoDup (map TravelAgent.id (travel_agents Sample.accounts))
  /\ NoDup (map TravelAgent.email
              (travel_agents
                 (snd (get_account_db (Auth.register_travel_agent Sample.hash Sample.new_agent)
                                      Sample.accounts))))
  /\ NoDup (map TravelAgent.id
              (travel_agents
                 (snd (get_account_db (Auth.register_travel_agent Sample.hash Sample.new_agent)
                                      Sample.accounts)))).
Proof.
  assert (He : NoDup (map TravelAgent.email (travel_agents Sample.accounts)))
    by (cbn; repeat constructor; cbn; tauto).
  assert (Hi : NoDup (map TravelAgent.id (travel_agents Sample.accounts)))
    by (cbn; repeat constructor; cbn; tauto).
  split; [exact He |]. split; [exact Hi |].
  exact (register_travel_agent_keeps_accounts_unique Sample.hash Sample.new_agent
           Sample.accounts He Hi).
Defined.

Lemma register_then_login_witness :
  exists msg st',
    get_account_db (Auth.register Sample.hash Sample.new_hotel) Sample.accounts
    = (Return msg, st')
    /\ Sample.verify "seasidepass" (Sample.hash "seasidepass") = true
    /\ exists r,
         Auth.login Sample.verify Sample.secret
           (HotelLogin.mk "desk@seaside.com" "seasidepass") st' 0
         = Return r
         /\ Auth.subject_id r = 2
         /\ Auth.subject_name r = "Seaside Inn"
         /\ Auth.token_type r = "bearer".
Proof.
  do 2 eexists. split; [vm_compute; reflexivity |]. split; [reflexivity |].
  eapply (register_then_login Sample.verify Sample.hash Sample.secret Sample.new_hotel
            Sample.accounts);
    [vm_compute; reflexivity | reflexivity].
Defined.

Lemma agent_registration_round_trip_witness :
  exists reg st',
    get_account_db (Auth.register_travel_agent Sample.hash Sample.new_agent) Sample.accounts
    = (Return reg, st')
    /\ Sample.verify "ninaspassword" (Sample.hash "ninaspassword") = true
    /\ 3600 < 0 + 24 * 3600
    /\ exists r a,
         Auth.login_travel_agent Sample.verify Sample.secret
           (TravelAgentLogin.mk "nina@voyages.com" "ninaspassword") st' 0
         = Return r
         /\ Auth.get_current_travel_agent Sample.secret (Auth.access_token r) st' 3600
            = Return a
         /\ TravelAgent.id a = Auth.agent_id reg
         /\ TravelAgent.name a = "Nina Voyages"
         /\ TravelAgent.email a = "nina@voyages.com".
Proof.
  do 2 eexists. split; [vm_compute; reflexivity |]. split; [reflexivity |]. split; [lia |].
  eapply (agent_registration_round_trip Sample.verify Sample.hash Sample.secret
            Sample.new_agent Sample.accounts);
    [vm_compute; reflexivity | reflexivity | lia].
Defined.

Lemma upload_then_my_bills_witness :
  exists resp w',
    pending (db Sample.world) = []
    /\ upload_bill "bucket" "electricity" 3 2024 "1450.75" "kWh" Sample.bill_pdf
                   1 "Grand Resort Hotel" Sample.clock Sample.world
       = (Return resp, w')
    /\ (exists object_key,
          In (object_key, file Sample.bill_pdf) (objects (s3 w'))
          /\ BillUploadResponse.file_url resp
             = "https://" ++ "bucket" ++ ".s3.amazonaws.com/" ++ object_key)
    /\ get_my_bills 1 (store (db w'))
       = (get_my_bills 1 (store (db Sample.world))
            ++ [UtilityBill.mk
                  (next_id UtilityBill.id (utility_bills (store (db Sample.world))))
                  1 "Grand Resort Hotel" "electricity" 3 2024 "1450.75" "kWh"
                  (BillUploadResponse.file_url resp)])%list
    /\ (2 <> 1 -> get_my_bills 2 (store (db w')) = get_my_bills 2 (store (db Sample.world))).
Proof.
  do 2 eexists. split; [reflexivity |]. split; [vm_compute; reflexivity |].
  eapply (upload_then_my_bills "bucket" "electricity" 3 2024 "1450.75" "kWh" Sample.bill_pdf
            1 "Grand Resort Hotel" Sample.clock Sample.world);
    [reflexivity | vm_compute; reflexivity].
Defined.

Lemma upload_then_footprint_witness :
  exists resp w',
    pending (db Sample.world) = []
    /\ upload_bill "bucket" "electricity" 3 2024 "1450.75" "kWh" Sample.bill_pdf
                   1 "Grand Resort Hotel" Sample.clock Sample.world
       = (Return resp, w')
    /\ exists acc acc' amount,
         footprint_loop (footprint_bills None 1 (store (db Sample.world))) footprint_init
         = Return acc
         /\ footprint_loop (footprint_bills None 1 (store (db w'))) footprint_init
            = Return acc'
         /\ float "1450.75" = Return amount
         /\ flt amount (of_int 0) = false
         /\ total_co2 acc'
            = fadd (total_co2 acc)
                   (fmul amount (if String.eqb "electricity" "electricity"
                                 then Fin 0.5 else Fin 0.001)).
Proof.
  do 2 eexists. split; [reflexivity |]. split; [vm_compute; reflexivity |].
  eapply (upload_then_footprint "bucket" "electricity" 3 2024 "1450.75" "kWh" Sample.bill_pdf
            1 "Grand Resort Hotel" Sample.clock Sample.world);
    [reflexivity | vm_compute; reflexivity].
Defined.

Lemma create_trip_details_witness :
  exists r s',
    create_trip Sample.tour Sample.sarah (SessionLocal Sample.accounts) = (Return r, s')
    /\ TripCarbonResponse.flight_details r
       = map (flight_detail 15) (TripCreate.flight_segments Sample.tour)
    /\ TripCarbonResponse.transport_details r
       = map (transport_detail 15) (TripCreate.local_transports Sample.tour)
    /\ TripCarbonResponse.flights_carbon_kg r
       = round3 (fold_left fadd (map fd_carbon_kg (TripCarbonResponse.flight_details r))
                           (Fin 0))
    /\ TripCarbonResponse.transport_carbon_kg r
       = round3 (fold_left fadd (map td_carbon_kg (TripCarbonResponse.transport_details r))
                           (Fin 0))
    /\ TripCarbonResponse.number_of_tourists r = 15.
Proof.
  do 2 eexists. split; [vm_compute; reflexivity |].
  eapply (create_trip_details Sample.tour Sample.sarah (SessionLocal Sample.accounts)).
  vm_compute; reflexivity.
Defined.

Lemma trip_details_not_owned_witness :
  (forall t, In t (trips Sample.with_foreign_trip) -> Trip.id t = 1 ->
             Trip.travel_agent_id t <> TravelAgent.id Sample.sarah)
  /\ get_trip_carbon_details 1 Sample.sarah Sample.with_foreign_trip
     = Raise (HTTPException 404 "Trip not found").
Proof.
  assert (H : forall t, In t (trips Sample.with_foreign_trip) -> Trip.id t = 1 ->
                        Trip.travel_agent_id t <> TravelAgent.id Sample.sarah).
  { intros t [<- | []] _. cbn. discriminate. }
  split; [exact H |].
  exact (trip_details_not_owned 1 Sample.sarah Sample.with_foreign_trip H).
Defined.

Lemma created_trip_hidden_from_others_witness :
  exists r st',
    get_db (create_trip Sample.tour Sample.sarah) Sample.accounts = (Return r, st')
    /\ TravelAgent.id Sample.tom <> TravelAgent.id Sample.sarah
    /\ get_trip_carbon_details (TripCarbonResponse.trip_id r) Sample.tom st'
       = Raise (HTTPException 404 "Trip not found").
Proof.
  do 2 eexists. split; [vm_compute; reflexivity |]. split; [discriminate |].
  eapply (created_trip_hidden_from_others Sample.tour Sample.sarah Sample.tom Sample.accounts);
    [vm_compute; reflexivity | discriminate].
Defined.

Lemma created_trip_read_back_witness :
  exists r st',
    get_db (create_trip Sample.tour Sample.sarah) Sample.accounts = (Return r, st')
    /\ TripCreate.number_of_tourists Sample.tour <> 0
    /\ (forall s, In s (hotel_stays Sample.accounts) ->
                  HotelStay.trip_id s <> next_id Trip.id (trips Sample.accounts))
    /\ exists d,
         get_trip_carbon_details (TripCarbonResponse.trip_id r) Sample.sarah st' = Return d
         /\ tc_trip_id d = TripCarbonResponse.trip_id r
         /\ tc_trip_name d = "European Adventure Tour"
         /\ tc_number_of_tourists d = 15.
Proof.
  do 2 eexists. split; [vm_compute; reflexivity |]. split; [discriminate |].
  split; [intros s [] |].
  eapply (created_trip_read_back Sample.tour Sample.sarah Sample.accounts);
    [vm_compute; reflexivity | discriminate | intros s []].
Defined.
